(** * Hand-gesture pipeline: smoothing, classification, stabilisation, pacing

    A shallow embedding of [backend/hand_tracker.py],
    [backend/gesture_recognizer.py] and the frame loop of [backend/app.py].

    Python's [float] is IEEE-754 binary64, so coordinates, distances and
    confidences are Rocq's primitive [float]s: [+], [-], [*], [/], [sqrt]
    and the comparisons are the very operations the interpreter performs,
    and every definition below evaluates.  Objects whose attributes are
    assigned ([self.landmark_history], [self.last_gesture],
    [self.gesture_confidence]) are threaded as explicit state; an
    [IndexError] raised by [lst[i]], or a [ValueError] raised by
    [math.sqrt], is a value of the result type [Res]. *)

From Stdlib Require Import Floats ZArith String List Bool Lia.
Import ListNotations.

Set Warnings "-inexact-float,-register-all".

#[local] Open Scope float_scope.

(** ** Python values and builtins used by the three modules *)

Module Py.

(** Exceptions the modelled code can raise. *)
Inductive Exn : Type :=
| IndexError
| ValueError.

(** Outcome of an expression that may raise. *)
Inductive Res (A : Type) : Type :=
| Ok (a : A)
| Raise (e : Exn).
Arguments Ok {A} a.
Arguments Raise {A} e.

Definition bind {A B : Type} (r : Res A) (k : A -> Res B) : Res B :=
  match r with
  | Ok a => k a
  | Raise e => Raise e
  end.

(** [lst[i]] for a non-negative constant index [i]. *)
Definition getitem {A : Type} (lst : list A) (i : nat) : Res A :=
  match nth_error lst i with
  | Some a => Ok a
  | None => Raise IndexError
  end.

(** [min(a, b)]: the first argument is kept unless the second is
    strictly smaller. *)
Definition min (a b : float) : float := if b <? a then b else a.

(** [max(a, b)]: the first argument is kept unless the second is
    strictly greater. *)
Definition max (a b : float) : float := if a <? b then b else a.

(** [sum(xs)] over floats, as CPython computed it up to 3.11: the builtin
    starts from the integer [0] and adds the items from left to right. *)
Definition sum_left_to_right (xs : list float) : float :=
  fold_left PrimFloat.add xs 0.



(** The builtins whose float results depend on the interpreter at hand.
    The code is modelled for any of them. *)
Class Builtins : Type := { sum : list float -> float }.

Definition before_3_12 : Builtins := {| sum := sum_left_to_right |}.

(** [math.sqrt(v)]: a negative argument is a domain error; NaN and the
    infinities pass through the IEEE square root. *)
Definition math_sqrt (v : float) : Res float :=
  if v <? 0 then Raise ValueError else Ok (sqrt v).

(** [sum] of a list of booleans counts the [True]s. *)
Definition sum_bool (bs : list bool) : Z :=
  fold_left (fun acc (b : bool) => (acc + Z.b2z b)%Z) bs 0%Z.

(** An [int] used as a float operand, for the small counts [len(...)]. *)
Definition float_of_nat (n : nat) : float :=
  PrimFloat.of_uint63 (Uint63.of_Z (Z.of_nat n)).

(** The values stored in the dictionaries sent to the client. *)
Inductive Value : Type :=
| VInt (n : Z)
| VFloat (f : float)
| VDict (items : list (string * Value)).

Definition Dict : Type := list (string * Value).

(** [d.get(k)] *)
Fixpoint get (d : Dict) (k : string) : option Value :=
  match d with
  | [] => None
  | (k', v) :: rest => if String.eqb k k' then Some v else get rest k
  end.

(** [d[k] = v]: an existing key keeps its place, a new one goes last. *)
Fixpoint set (d : Dict) (k : string) (v : Value) : Dict :=
  match d with
  | [] => [(k, v)]
  | (k', v') :: rest =>
      if String.eqb k k' then (k', v) :: rest else (k', v') :: set rest k v
  end.

End Py.

Notation "x <- r ;; k" := (Py.bind r (fun x => k))
(at level 61, r at next level, right associativity).

Import Py.

(** ** Landmarks and hands

    A landmark is the dictionary [{'x': .., 'y': .., 'z': ..}]; a hand is
    the dictionary that [HandTracker.get_landmarks] appends to
    [hands_data]. *)

Record Landmark : Type := mkLandmark { x : float; y : float; z : float }.

Record Hand : Type := mkHand {
  landmarks : list Landmark;
  label : string;
  wrist : Landmark;
  index_tip : Landmark;
  thumb_tip : Landmark;
  middle_tip : Landmark
}.

(** [for x in xs: ys.append(f(x))] where [f] may raise. *)
Fixpoint mapM {A B : Type} (f : A -> Res B) (xs : list A) : Res (list B) :=
  match xs with
  | [] => Ok []
  | a :: rest => b <- f a ;; bs <- mapM f rest ;; Ok (b :: bs)
  end.

(** ** [hand_tracker.py] *)

Module HandTracker.

(** The attributes of [self] that the smoothing code reads and writes. *)
Record t : Type := mk { landmark_history : list (list Landmark) }.

(** [self.history_size = 6] *)
Definition history_size : nat := 6.

(** [__init__]: [self.landmark_history = []] *)
Definition init : t := mk [].

(** Lines 108-113 of [_smooth_landmarks]:
    [self.landmark_history.append(landmarks)] followed by
    [if len(self.landmark_history) > self.history_size: pop(0)]. *)
Definition push_history (history : list (list Landmark))
    (current : list Landmark) : list (list Landmark) :=
  let appended := history ++ [current] in
  if (history_size <? length appended)%nat then tl appended else appended.

Section WithBuiltins.

Context {py : Builtins}.

(** The generator [h[i][c] for h in self.landmark_history]; it raises at
    the first stored sample that has no entry [i]. *)
Fixpoint coords (c : Landmark -> float) (history : list (list Landmark))
    (i : nat) : Res (list float) :=
  match history with
  | [] => Ok []
  | h :: rest => lm <- getitem h i ;; vs <- coords c rest i ;; Ok (c lm :: vs)
  end.

(** [sum(h[i][c] for h in history) / len(history)] *)
Definition average (c : Landmark -> float) (history : list (list Landmark))
    (i : nat) : Res float :=
  vs <- coords c history i ;;
  Ok (Py.sum vs / float_of_nat (length history)).

(** One iteration of the loop [for i in range(len(landmarks))]. *)
Definition smoothed_at (history : list (list Landmark)) (i : nat)
    : Res Landmark :=
  avg_x <- average x history i ;;
  avg_y <- average y history i ;;
  avg_z <- average z history i ;;
  Ok (mkLandmark avg_x avg_y avg_z).

(** [_smooth_landmarks]: the history is updated before anything can
    raise, so the new state is returned in every case. *)
Definition _smooth_landmarks (self : t) (current : list Landmark)
    : t * Res (list Landmark) :=
  let history := push_history (landmark_history self) current in
  let self' := mk history in
  if (length history <? 2)%nat then (self', Ok current)
  else (self', mapM (smoothed_at history) (seq 0 (length current))).

(** The tracker after smoothing the raw samples of successive frames. *)
Definition feed (self : t) (samples : list (list Landmark)) : t :=
  fold_left (fun s current => fst (_smooth_landmarks s current)) samples self.

End WithBuiltins.

(** What [get_landmarks] reads of the detector's result object:
    [multi_hand_landmarks] is [None] when no hand was found, and
    [multi_handedness] carries the label of each hand. *)
Record Results : Type := mkResults {
  multi_hand_landmarks : option (list (list Landmark));
  multi_handedness : list string
}.

Section WithBuiltins.

Context {py : Builtins}.

(** The dictionary literal appended to [hands_data]. *)
Definition hand_entry (smoothed : list Landmark) (hand_label : string)
    : Res Hand :=
  w <- getitem smoothed 0 ;;
  i <- getitem smoothed 8 ;;
  t <- getitem smoothed 4 ;;
  m <- getitem smoothed 12 ;;
  Ok (mkHand smoothed hand_label w i t m).

(** The loop over [zip(multi_hand_landmarks, multi_handedness)]. *)
Fixpoint hands_loop (self : t) (pairs : list (list Landmark * string))
    (hands_data : list Hand) : t * Res (list Hand) :=
  match pairs with
  | [] => (self, Ok hands_data)
  | (raw, hand_label) :: rest =>
      let (self', smoothed) := _smooth_landmarks self raw in
      match (s <- smoothed ;; hand_entry s hand_label) with
      | Raise e => (self', Raise e)
      | Ok hand => hands_loop self' rest (hands_data ++ [hand])
      end
  end.

(** [get_landmarks]: [None] as soon as [multi_hand_landmarks] is falsy
    ([None] or an empty list), before any smoothing. *)
Definition get_landmarks (self : t) (results : Results)
    : t * Res (option (list Hand)) :=
  match multi_hand_landmarks results with
  | None | Some [] => (self, Ok None)
  | Some hs =>
      let (self', r) :=
        hands_loop self (combine hs (multi_handedness results)) [] in
      (self', hands_data <- r ;; Ok (Some hands_data))
  end.

End WithBuiltins.

End HandTracker.

(** ** [gesture_recognizer.py] *)

Module GestureRecognizer.

(** The dictionary returned by [_detect_fingers_up]. *)
Record Fingers : Type := mkFingers {
  thumb : bool; index : bool; middle : bool; ring : bool; pinky : bool
}.

(** A gesture dictionary: every one the module builds has a ['type'] key
    holding a string, written first; [rest] are the other items in
    insertion order.  Such a dictionary is never empty, hence truthy. *)
Record Gesture : Type := mkGesture { type : string; rest : Dict }.

(** [gesture[k] = v] for a key other than ['type']. *)
Definition setitem (g : Gesture) (k : string) (v : Value) : Gesture :=
  mkGesture (type g) (Py.set (rest g) k v).

(** The attributes of [self] that [recognize] reads and writes.
    [gesture_confidence] is initialised to the integer [0]; both
    assignments to it add or subtract a float first, so it is held as a
    float from the start. *)
Record t : Type := mk {
  last_gesture : option string;
  gesture_confidence : float
}.

Definition init : t := mk None 0.

Definition pinch_threshold : float := 0.05.
Definition min_confidence : float := 0.2.
Definition confidence_increment : float := 0.15.
Definition confidence_decrement : float := 0.15.

Definition _detect_fingers_up (lms : list Landmark) : Res Fingers :=
  l4 <- getitem lms 4 ;;
  l3 <- getitem lms 3 ;;
  let thumb := x l3 <? x l4 in
  l8 <- getitem lms 8 ;;
  l6 <- getitem lms 6 ;;
  let index := y l8 <? y l6 in
  l12 <- getitem lms 12 ;;
  l10 <- getitem lms 10 ;;
  let middle := y l12 <? y l10 in
  l16 <- getitem lms 16 ;;
  l14 <- getitem lms 14 ;;
  let ring := y l16 <? y l14 in
  l20 <- getitem lms 20 ;;
  l18 <- getitem lms 18 ;;
  let pinky := y l20 <? y l18 in
  Ok (mkFingers thumb index middle ring pinky).

Definition _calculate_distance (point1 point2 : Landmark) : Res float :=
  let dx := x point1 - x point2 in
  let dy := y point1 - y point2 in
  let dz := z point1 - z point2 in
  math_sqrt (dx * dx + dy * dy + dz * dz).

(** [{'x': a, 'y': b}] *)
Definition xy (a b : float) : Value :=
  VDict [("x"%string, VFloat a); ("y"%string, VFloat b)].

Section WithBuiltins.

Context {py : Builtins}.

Definition _classify_gesture (fingers_up : Fingers) (lms : list Landmark)
    (hand : Hand) : Res Gesture :=
  thumb_tip <- getitem lms 4 ;;
  index_tip <- getitem lms 8 ;;
  middle_tip <- getitem lms 12 ;;
  wrist <- getitem lms 0 ;;
  thumb_index_distance <- _calculate_distance thumb_tip index_tip ;;
  let extended_count :=
    sum_bool [thumb fingers_up; index fingers_up; middle fingers_up;
              ring fingers_up; pinky fingers_up] in
  if index fingers_up && negb (middle fingers_up) && negb (ring fingers_up)
     && negb (pinky fingers_up) && (pinch_threshold <=? thumb_index_distance)
  then
    mcp <- getitem lms 5 ;;
    Ok (mkGesture "point"
          [("position"%string, xy (x index_tip) (y index_tip));
           ("direction"%string,
            xy (x index_tip - x mcp) (y index_tip - y mcp))])
  else if thumb_index_distance <? pinch_threshold then
    Ok (mkGesture "pinch"
          [("distance"%string, VFloat thumb_index_distance);
           ("position"%string,
            xy ((x thumb_tip + x index_tip) / 2)
               ((y thumb_tip + y index_tip) / 2))])
  else if index fingers_up && middle fingers_up && negb (ring fingers_up)
          && negb (pinky fingers_up)
  then
    index_middle_distance <- _calculate_distance index_tip middle_tip ;;
    Ok (mkGesture "two_fingers"
          [("position"%string,
            xy ((x index_tip + x middle_tip) / 2)
               ((y index_tip + y middle_tip) / 2));
           ("distance"%string, VFloat index_middle_distance)])
  else if (4 <=? extended_count)%Z then
    let palm_center_x := Py.sum (map x (firstn 5 lms)) / 5 in
    let palm_center_y := Py.sum (map y (firstn 5 lms)) / 5 in
    Ok (mkGesture "open_palm"
          [("position"%string, xy palm_center_x palm_center_y);
           ("fingers_extended"%string, VInt extended_count)])
  else
    Ok (mkGesture "none" [("extended_fingers"%string, VInt extended_count)]).

(** Lines 42-48 of [recognize]: the classifier's candidate for the
    primary hand. *)
Definition candidate (hand : Hand) : Res Gesture :=
  let lms := landmarks hand in
  fingers_up <- _detect_fingers_up lms ;;
  _classify_gesture fingers_up lms hand.

(** [gesture['type'] == self.last_gesture], where [last_gesture] is
    [None] or an earlier type string. *)
Definition same_type (ty : string) (last : option string) : bool :=
  match last with
  | Some s => String.eqb ty s
  | None => false
  end.

(** [{'type': 'none', 'confidence': 0}] *)
Definition none_event : Gesture :=
  mkGesture "none" [("confidence"%string, VInt 0)].

(** Lines 50-55 of [recognize]: the confidence update. *)
Definition update_confidence (self : t) (gesture : Gesture) : t :=
  if same_type (type gesture) (last_gesture self)
  then mk (last_gesture self)
          (Py.min 1.0 (gesture_confidence self + confidence_increment))
  else mk (Some (type gesture))
          (Py.max 0.0 (gesture_confidence self - confidence_decrement)).

(** Lines 57-65 of [recognize]: the emission decision, evaluated on the
    state that [update_confidence] has already written. *)
Definition emit (self : t) (gesture : Gesture) : Gesture :=
  if negb (String.eqb (type gesture) "none") then
    let gesture := setitem gesture "confidence"
                     (VFloat (gesture_confidence self)) in
    if (min_confidence <=? gesture_confidence self)
       || negb (same_type (type gesture) (last_gesture self))
    then gesture
    else none_event
  else none_event.

(** Lines 50-65 of [recognize], for the candidate [gesture] that
    [_classify_gesture] returned. *)
Definition stabilize (self : t) (gesture : Gesture) : t * Gesture :=
  let self' := update_confidence self gesture in
  (self', emit self' gesture).

(** [recognize(hands_data)].  [hands_data] is [None] or a list; the
    result [Ok None] is the Python value [None] of line 38. *)
Definition recognize (self : t) (hands_data : option (list Hand))
    : t * Res (option Gesture) :=
  match hands_data with
  | None | Some [] => (self, Ok None)
  | Some (hand :: _) =>
      match candidate hand with
      | Raise e => (self, Raise e)
      | Ok gesture =>
          let (self', out) := stabilize self gesture in
          (self', Ok (Some out))
      end
  end.

(** The emission rule in the words of the specification: a candidate
    whose type is not ['none'] is emitted, with the confidence attached,
    if and only if the confidence is at least [min_confidence]. *)
Definition emit_by_threshold (self : t) (gesture : Gesture) : Gesture :=
  if negb (String.eqb (type gesture) "none")
     && (min_confidence <=? gesture_confidence self)
  then setitem gesture "confidence" (VFloat (gesture_confidence self))
  else none_event.

Definition recognize_by_threshold (self : t) (hands_data : option (list Hand))
    : t * Res (option Gesture) :=
  match hands_data with
  | None | Some [] => (self, Ok None)
  | Some (hand :: _) =>
      match candidate hand with
      | Raise e => (self, Raise e)
      | Ok gesture =>
          let self' := update_confidence self gesture in
          (self', Ok (Some (emit_by_threshold self' gesture)))
      end
  end.

(** Running [recognize] over the hands of successive cycles, collecting
    the results. *)
Fixpoint run (self : t) (cycles : list (option (list Hand)))
    : t * list (Res (option Gesture)) :=
  match cycles with
  | [] => (self, [])
  | hands_data :: later =>
      let (self1, out) := recognize self hands_data in
      let (self2, outs) := run self1 later in
      (self2, out :: outs)
  end.

End WithBuiltins.

End GestureRecognizer.

(** ** [app.py]: the body of the loop in [stream_camera] *)

Module App.

Record Session : Type := mkSession {
  hand_tracker : HandTracker.t;
  gesture_recognizer : GestureRecognizer.t
}.

(** The ['landmarks'] and ['gesture'] entries of the [data] dictionary
    emitted as [camera_frame]. *)
Record FrameData : Type := mkFrameData {
  data_landmarks : option (list Hand);
  data_gesture : option GestureRecognizer.Gesture
}.

(** Steps 3 and 4 of a cycle, from the detector's [results] on. *)
Definition track_and_recognize {py : Builtins} (s : Session)
    (results : HandTracker.Results)
    : Session * Res FrameData :=
  let (tracker, r) := HandTracker.get_landmarks (hand_tracker s) results in
  match r with
  | Raise e => (mkSession tracker (gesture_recognizer s), Raise e)
  | Ok lms =>
      match lms with
      | None | Some [] =>
          (mkSession tracker (gesture_recognizer s),
           Ok (mkFrameData lms None))
      | Some (_ :: _) =>
          let (recognizer, g) :=
            GestureRecognizer.recognize (gesture_recognizer s) lms in
          (mkSession tracker recognizer,
           gesture_data <- g ;; Ok (mkFrameData lms gesture_data))
      end
  end.

(** [frame_time = 1.0 / target_fps] with [target_fps = 60] *)
Definition frame_time : float := 1.0 / 60.

(** [sleep_time = max(0, frame_time - elapsed)]; the integer [0] of the
    source is the float zero here. *)
Definition sleep_time (elapsed : float) : float :=
  Py.max 0 (frame_time - elapsed).

(** The call that ends a cycle: [socketio.sleep(seconds)]. *)
Inductive Yield : Type :=
| Sleep (seconds : float).

Definition pace (elapsed : float) : Yield :=
  let s := sleep_time elapsed in
  if 0 <? s then Sleep s else Sleep 0.

End App.

(** ** Quantities and inputs the properties speak about *)











(** A hand sample whose 21 landmarks all sit at [(c, c, c)]. *)
Definition flat_sample (c : float) : list Landmark :=
  repeat (mkLandmark c c c) 21.

(** The hand dictionary built from 21 landmarks. *)
Definition hand_of (lms : list Landmark) : Hand :=
  let d := mkLandmark 0 0 0 in
  mkHand lms "Right" (nth 0 lms d) (nth 8 lms d) (nth 4 lms d) (nth 12 lms d).

(** A binary64 datum that is not below zero: NaN, a zero of either sign,
    a positive number or plus infinity. *)
Definition not_negative (v : spec_float) : Prop :=
  match v with
  | S754_infinity true | S754_finite true _ _ => False
  | _ => True
  end.

(** The binary64 Euclidean distance that [_calculate_distance] returns
    when [math.sqrt] accepts its argument. *)
Definition distance (point1 point2 : Landmark) : float :=
  let dx := x point1 - x point2 in
  let dy := y point1 - y point2 in
  let dz := z point1 - z point2 in
  sqrt (dx * dx + dy * dy + dz * dz).

(** Landmark [i] of a hand (the origin when the list is too short). *)
Definition landmark (hand : Hand) (i : nat) : Landmark :=
  nth i (landmarks hand) (mkLandmark 0 0 0).

(** The five type strings of the gesture vocabulary. *)
Definition gesture_types : list string :=
  ["point"; "pinch"; "two_fingers"; "open_palm"; "none"]%string.

(** A hand sample resting at [(0.5, 0.5, 0)] except for the thumb tip
    (landmark 4) and the index tip (landmark 8). *)
Definition sample_with (thumb_tip index_tip : Landmark) : list Landmark :=
  map (fun i => if (i =? 4)%nat then thumb_tip
                else if (i =? 8)%nat then index_tip
                else mkLandmark 0.5 0.5 0)
      (seq 0 21).

(** Index finger raised, thumb tip 0.3 away from the index tip. *)
Definition pointing_hand : Hand :=
  hand_of (sample_with (mkLandmark 0.5 0.5 0) (mkLandmark 0.5 0.2 0)).

(** Index finger raised, thumb tip 0.02 away from the index tip. *)
Definition pinching_hand : Hand :=
  hand_of (sample_with (mkLandmark 0.5 0.22 0) (mkLandmark 0.5 0.2 0)).

(** The values [gesture_confidence] takes: the closure of the initial 0
    under [min(1.0, c + 0.15)] and [max(0.0, c - 0.15)] in binary64. *)
Definition confidence_levels : list float :=
  [0; 0.099999999999999922; 0.14999999999999994; 0.14999999999999999;
   0.24999999999999992; 0.29999999999999993; 0.29999999999999999;
   0.39999999999999991; 0.44999999999999996; 0.54999999999999993;
   0.59999999999999998; 0.69999999999999996; 0.75; 0.84999999999999998;
   0.90000000000000002; 1].

(** ** The rest of [app.py]: the whole cycle of [stream_camera] and the
    stream handlers *)

Module Stream.

(** [preview_frame_skip = 2] *)
Definition preview_frame_skip : Z := 2.

(** What one pass through the loop body obtains from outside: the
    camera ([ret]), the detector ([results]), the encoder (the base64
    text of the preview, used only when a preview is made) and the four
    readings of [time.time()]. *)
Record Tick : Type := mkTick {
  ret : bool;
  results : HandTracker.Results;
  frame_base64 : string;
  start_time : float;
  timestamp : float;
  end_time : float;
  current_time : float
}.

(** The variables that live across cycles: the tracker and recognizer
    objects, the local [frame_counter] and the module globals
    [fps_counter], [last_fps_time] and [frame_times]. *)
Record Loop : Type := mkLoop {
  session : App.Session;
  frame_counter : Z;
  fps_counter : Z;
  last_fps_time : float;
  frame_times : list float
}.

(** What a cycle sends to the client. *)
Inductive Event : Type :=
| CameraFrame (hands : option (list Hand))
              (gesture : option GestureRecognizer.Gesture)
              (time : float) (frame : option string)
| Performance (fps latency : float).

(** [frame_times.append(elapsed)] followed by
    [if len(frame_times) > 60: frame_times.pop(0)]. *)
Definition record_frame_time (times : list float) (elapsed : float)
    : list float :=
  let appended := times ++ [elapsed] in
  if (60 <? length appended)%nat then tl appended else appended.

(** A small non-negative [int] used as a float operand. *)
Definition float_of_Z (n : Z) : float :=
  PrimFloat.of_uint63 (Uint63.of_Z n).

Section WithBuiltins.

Context {py : Builtins}.

(** [round(v, 1)] is left to the interpreter. *)
Variable round1 : float -> float.

(** [sum(frame_times) / len(frame_times) * 1000 if frame_times else 0] *)
Definition avg_latency (times : list float) : float :=
  match times with
  | [] => 0
  | _ :: _ => Py.sum times / float_of_nat (length times) * 1000
  end.

(** The ['frame'] entry of [data]: present on every
    [preview_frame_skip]-th counted frame, when the encoded text is not
    empty. *)
Definition preview (counter : Z) (encoded : string) : option string :=
  if (counter mod preview_frame_skip =? 0)%Z
  then match encoded with
       | EmptyString => None
       | _ => Some ("data:image/jpeg;base64," ++ encoded)%string
       end
  else None.

(** One pass through the body of [while is_streaming].  [Ok ([], None)]
    is the [continue] after a failed capture: nothing is emitted and
    [socketio.sleep] is not reached. *)
Definition cycle (g : Loop) (t : Tick)
    : Loop * Res (list Event * option App.Yield) :=
  if negb (ret t) then (g, Ok ([], None))
  else
    let (session', r) := App.track_and_recognize (session g) (results t) in
    match r with
    | Raise e =>
        (mkLoop session' (frame_counter g) (fps_counter g)
           (last_fps_time g) (frame_times g),
         Raise e)
    | Ok data =>
        let camera_frame :=
          CameraFrame (App.data_landmarks data) (App.data_gesture data)
            (timestamp t) (preview (frame_counter g) (frame_base64 t)) in
        let elapsed := end_time t - start_time t in
        let times := record_frame_time (frame_times g) elapsed in
        let counted := (fps_counter g + 1)%Z in
        let yield := Some (App.pace elapsed) in
        if 1.0 <=? current_time t - last_fps_time g then
          let avg_fps :=
            float_of_Z counted / (current_time t - last_fps_time g) in
          (mkLoop session' (frame_counter g + 1) 0 (current_time t) times,
           Ok ([camera_frame;
                Performance (round1 avg_fps) (round1 (avg_latency times))],
               yield))
        else
          (mkLoop session' (frame_counter g + 1) counted (last_fps_time g)
             times,
           Ok ([camera_frame], yield))
    end.

(** Successive passes, until one raises (the exception ends the
    thread). *)
Fixpoint run (g : Loop) (ticks : list Tick)
    : Loop * Res (list (list Event * option App.Yield)) :=
  match ticks with
  | [] => (g, Ok [])
  | t :: later =>
      let (g1, r) := cycle g t in
      match r with
      | Raise e => (g1, Raise e)
      | Ok out =>
          let (g2, rs) := run g1 later in
          (g2, outs <- rs ;; Ok (out :: outs))
      end
  end.

End WithBuiltins.

(** The globals the two stream handlers read and write.  [camera] is
    whether a capture object is assigned ([None] before the first
    [init_camera] that gets as far as the assignment); [trackers] holds
    [hand_tracker] and [gesture_recognizer], which [init_hand_tracking]
    sets together. *)
Record Server : Type := mkServer {
  camera : bool;
  trackers : option App.Session;
  is_streaming : bool
}.

(** How a call of [init_camera] ends: [cv2.VideoCapture(0)] raises
    (nothing is assigned), one of the [camera.set] calls raises, the new
    object reports not open, or it reports open.  Only the last returns
    [True]. *)
Inductive CameraInit : Type :=
| ConstructorRaises
| SetRaises
| NotOpened
| Opened.

(** What a call of [handle_start_stream] obtains from outside:
    [camera.isOpened()] of the object it finds, the outcome of
    [init_camera] and whether [init_hand_tracking] constructs its
    objects.  Each is consulted only if the handler gets there. *)
Record StartEnv : Type := mkStartEnv {
  is_opened : bool;
  camera_init : CameraInit;
  tracker_ok : bool
}.

(** What a handler does besides writing globals. *)
Inductive Action : Type :=
| EmitError (message : string)
| EmitStreamStarted
| EmitStreamStopped
| StartThread.

(** [not camera or not camera.isOpened()] *)
Definition camera_unavailable (s : Server) (opened : bool) : bool :=
  negb (camera s) || negb opened.

(** [init_camera]: the global after the call and the value returned. *)
Definition init_camera (s : Server) (outcome : CameraInit)
    : Server * bool :=
  match outcome with
  | ConstructorRaises => (s, false)
  | SetRaises | NotOpened =>
      (mkServer true (trackers s) (is_streaming s), false)
  | Opened => (mkServer true (trackers s) (is_streaming s), true)
  end.

(** [init_hand_tracking] *)
Definition init_hand_tracking (s : Server) (ok : bool) : Server * bool :=
  if ok
  then (mkServer (camera s)
          (Some (App.mkSession HandTracker.init GestureRecognizer.init))
          (is_streaming s),
        true)
  else (s, false).

(** [handle_start_stream] *)
Definition handle_start_stream (s : Server) (env : StartEnv)
    : Server * list Action :=
  let (s1, camera_ready) :=
    if camera_unavailable s (is_opened env)
    then init_camera s (camera_init env)
    else (s, true) in
  if negb camera_ready
  then (s1, [EmitError "Failed to initialize camera"])
  else
    let (s2, trackers_ready) :=
      match trackers s1 with
      | None => init_hand_tracking s1 (tracker_ok env)
      | Some _ => (s1, true)
      end in
    if negb trackers_ready
    then (s2, [EmitError "Failed to initialize hand tracking"])
    else if is_streaming s2 then (s2, [])
    else (mkServer (camera s2) (trackers s2) true,
          [StartThread; EmitStreamStarted]).

(** [handle_stop_stream] *)
Definition handle_stop_stream (s : Server) : Server * list Action :=
  (mkServer (camera s) (trackers s) false, [EmitStreamStopped]).

(** A client request. *)
Inductive Request : Type :=
| StartStream (env : StartEnv)
| StopStream.

Definition handle (s : Server) (r : Request) : Server * list Action :=
  match r with
  | StartStream env => handle_start_stream s env
  | StopStream => handle_stop_stream s
  end.

(** Requests handled one after the other; the actions in order. *)
Fixpoint serve (s : Server) (requests : list Request)
    : Server * list Action :=
  match requests with
  | [] => (s, [])
  | r :: later =>
      let (s1, done) := handle s r in
      let (s2, rest) := serve s1 later in
      (s2, done ++ rest)
  end.

End Stream.

(** ** Further quantities the properties speak about *)

(** Lines 50-65 of [recognize] over the candidates of successive
    cycles. *)
Fixpoint stabilize_all (self : GestureRecognizer.t)
    (candidates : list GestureRecognizer.Gesture)
    : GestureRecognizer.t * list GestureRecognizer.Gesture :=
  match candidates with
  | [] => (self, [])
  | g :: later =>
      let (self1, out) := GestureRecognizer.stabilize self g in
      let (self2, outs) := stabilize_all self1 later in
      (self2, out :: outs)
  end.

(** The increment of line 52 of [recognize]:
    [min(1.0, self.gesture_confidence + self.confidence_increment)]. *)
Definition incremented (c : float) : float :=
  Py.min 1.0 (c + GestureRecognizer.confidence_increment).

(** Two binary64 data that differ at most in their sign. *)
Definition same_magnitude (v w : spec_float) : Prop :=
  SFabs v = SFabs w.

(** A hand sample resting at [(0.5, 0.5, 0)] with the listed landmarks
    raised to [y = 0.2] and the thumb tip (landmark 4) where given. *)
Definition sample_raising (raised : list nat) (thumb_tip : Landmark)
    : list Landmark :=
  map (fun i => if (i =? 4)%nat then thumb_tip
                else if existsb (Nat.eqb i) raised then mkLandmark 0.5 0.2 0
                else mkLandmark 0.5 0.5 0)
      (seq 0 21).

(** Index and middle finger raised. *)
Definition two_finger_hand : Hand :=
  hand_of (sample_raising [8; 12]%nat (mkLandmark 0.5 0.5 0)).

(** All four fingers raised and the thumb out. *)
Definition open_hand : Hand :=
  hand_of (sample_raising [8; 12; 16; 20]%nat (mkLandmark 0.6 0.5 0)).

(** The extended-finger count of a hand, as [_classify_gesture] sums
    it. *)
Definition extended_count (hand : Hand) : Z :=
  let lm := landmark hand in
  sum_bool [x (lm 3%nat) <? x (lm 4%nat);
            y (lm 8%nat) <? y (lm 6%nat);
            y (lm 12%nat) <? y (lm 10%nat);
            y (lm 16%nat) <? y (lm 14%nat);
            y (lm 20%nat) <? y (lm 18%nat)].

(** The four shortcut entries of a hand dictionary agree with its
    landmark list. *)
Definition hand_entries_match (h : Hand) : Prop :=
  wrist h = landmark h 0 /\ index_tip h = landmark h 8 /\
  thumb_tip h = landmark h 4 /\ middle_tip h = landmark h 12.

(** Every hand the detector reports in this tick has 21 landmarks. *)
Definition tick_has_full_hands (t : Stream.Tick) : Prop :=
  match HandTracker.multi_hand_landmarks (Stream.results t) with
  | None => True
  | Some raw => Forall (fun h => length h = 21%nat) raw
  end.

(** Whether what a cycle sent carries a preview image. *)
Definition has_preview (out : list Stream.Event * option App.Yield) : bool :=
  match fst out with
  | Stream.CameraFrame _ _ _ (Some _) :: _ => true
  | _ => false
  end.

(** The processing time a captured tick records. *)
Definition elapsed_of (t : Stream.Tick) : float :=
  Stream.end_time t - Stream.start_time t.

(** How many threads a list of actions starts. *)
Definition threads_started (actions : list Stream.Action) : nat :=
  length (filter (fun a => match a with
                           | Stream.StartThread => true
                           | _ => false
                           end) actions).

(** How many of the requests are [stop_stream]. *)
Definition stops (requests : list Stream.Request) : nat :=
  length (filter (fun r => match r with
                           | Stream.StopStream => true
                           | _ => false
                           end) requests).

(** The last [n] entries of a list. *)
Definition last_n {A : Type} (n : nat) (l : list A) : list A :=
  skipn (length l - n) l.

(** What the loop owes a tick: for a captured frame one [camera_frame]
    stamped with the tick's time, at most one [performance] after it,
    and [socketio.sleep] on the paced duration; for a failed capture
    nothing at all, from any state of the loop. *)
Definition answers {py : Builtins} (round1 : float -> float)
    (t : Stream.Tick) (out : list Stream.Event * option App.Yield) : Prop :=
  if Stream.ret t
  then snd out = Some (App.pace (elapsed_of t)) /\
       exists hands gesture frame rest,
         fst out = Stream.CameraFrame hands gesture (Stream.timestamp t) frame
                   :: rest
         /\ (rest = [] \/ exists f l, rest = [Stream.Performance f l])
  else out = ([], None) /\
       forall g0, Stream.cycle round1 g0 t = (g0, Ok ([], None)).

(** ** Inputs of the concrete runs *)

(** [pointing_hand] seen as a left hand, with a 22nd landmark and
    shortcut entries that point elsewhere. *)
Definition pointing_hand_relabelled : Hand :=
  mkHand (landmarks pointing_hand ++ [mkLandmark 9 9 9]) "Left"
    (mkLandmark 1 1 1) (mkLandmark 1 1 1) (mkLandmark 1 1 1)
    (mkLandmark 1 1 1).

(** A bare candidate of the given type. *)
Definition bare (ty : string) : GestureRecognizer.Gesture :=
  GestureRecognizer.mkGesture ty [].

(** The detector reporting [pointing_hand] as one right hand. *)
Definition one_hand : HandTracker.Results :=
  HandTracker.mkResults (Some [landmarks pointing_hand]) ["Right"%string].

(** A pass whose capture succeeds, taking 1/256 s, and one whose
    capture fails. *)
Definition captured_tick : Stream.Tick :=
  Stream.mkTick true one_hand "/9j/" 10 10.001953125 10.00390625
    10.00390625.

Definition failed_tick : Stream.Tick :=
  Stream.mkTick false (HandTracker.mkResults None []) EmptyString 11 11 11 11.

(** The loop as [stream_camera] enters it on a fresh server. *)
Definition fresh_loop : Stream.Loop :=
  Stream.mkLoop (App.mkSession HandTracker.init GestureRecognizer.init)
    0 0 9.5 [].

(** A server before any initialisation, and an environment in which
    both initialisations succeed. *)
Definition cold_server : Stream.Server := Stream.mkServer false None false.

Definition all_well : Stream.StartEnv := Stream.mkStartEnv true Stream.Opened true.

(** * Properties *)

(** ** Order facts about binary64 comparisons

    Derived from the bit-level specification of the primitive
    comparisons ([SFcompare]). *)

Section FloatOrder.

Lemma SFcompare_swap (a b : spec_float) (c : comparison) :
  SFcompare a b = Some c -> SFcompare b a = Some (CompOpp c).
Proof.
  destruct a as [sa | sa | | sa ma ea], b as [sb | sb | | sb mb eb];
    cbn [SFcompare]; try discriminate;
    try (destruct sa; intros [= <-]; reflexivity);
    try (destruct sb; intros [= <-]; reflexivity);
    try (destruct sa, sb; intros [= <-]; reflexivity).
  destruct sa, sb; intros [= <-]; try reflexivity; f_equal;
    rewrite (Z.compare_antisym ea eb);
    destruct (ea ?= eb)%Z; cbn [CompOpp]; try reflexivity.
  - rewrite CompOpp_involutive. exact (Pos.compare_cont_antisym mb ma Eq).
  - symmetry. exact (Pos.compare_cont_antisym ma mb Eq).
Qed.

Lemma SFcompare_refl (a : spec_float) :
  a <> S754_nan -> SFcompare a a = Some Eq.
Proof.
  destruct a as [s | s | | s m e]; cbn [SFcompare]; try congruence.
  - destruct s; reflexivity.
  - intros _.
    destruct s; rewrite Z.compare_refl, Pos.compare_cont_refl; reflexivity.
Qed.


Lemma is_nan_spec (a : float) : is_nan a = true <-> Prim2SF a = S754_nan.
Proof.
  unfold is_nan. rewrite FloatAxioms.eqb_spec. unfold SFeqb.
  destruct (Prim2SF a) as [s | s | | s m e] eqn:E.
  - cbn. split; discriminate.
  - destruct s; cbn; split; discriminate.
  - cbn. tauto.
  - rewrite SFcompare_refl by discriminate. cbn. split; discriminate.
Qed.

(** [a < b] excludes [b <= a]. *)
Lemma ltb_leb_rev (a b : float) : (a <? b) = true -> (b <=? a) = false.
Proof.
  rewrite FloatAxioms.ltb_spec, FloatAxioms.leb_spec. unfold SFltb, SFleb.
  destruct (SFcompare (Prim2SF a) (Prim2SF b)) as [[ | | ] | ] eqn:E;
    try discriminate.
  intros _. rewrite (SFcompare_swap _ _ _ E). reflexivity.
Qed.





(** Two floats that [=?] tells apart are different values. *)
Lemma float_neq (a b : float) :
  (a =? a) = true -> (a =? b) = false -> a <> b.
Proof. intros Ha Hab E. rewrite <- E in Hab. congruence. Qed.

End FloatOrder.

(** ** Signs of binary64 results

    Rounding keeps the sign it is given, so a square is never negative
    and neither is a sum of squares: [math.sqrt] in
    [_calculate_distance] never sees a negative argument. *)

Section FloatSign.

Lemma binary_round_aux_sign (sx : bool) (mx ex : Z) (lx : location) :
  sx = false -> not_negative (binary_round_aux prec emax sx mx ex lx).
Proof.
  intros ->. unfold binary_round_aux.
  destruct (shr_fexp prec emax mx ex lx) as [mrs' e'].
  destruct (shr_fexp prec emax _ e' loc_Exact) as [mrs'' e''].
  destruct (shr_m mrs'') as [|m|m]; cbn; auto.
  match goal with |- context [if ?b then _ else _] => destruct b end;
    exact I.
Qed.

Lemma SFmul_square_sign (v : spec_float) : not_negative (SF64mul v v).
Proof.
  destruct v as [s | s | | s m e]; cbn; auto.
  - destruct s; exact I.
  - apply binary_round_aux_sign. destruct s; reflexivity.
Qed.

Lemma SFadd_sign (v w : spec_float) :
  not_negative v -> not_negative w -> not_negative (SF64add v w).
Proof.
  destruct v as [sv | sv | | sv mv ev], w as [sw | sw | | sw mw ew];
    try (destruct sv); try (destruct sw); cbn; auto; try contradiction.
  intros _ _.
  unfold binary_normalize, binary_round.
  match goal with
  | |- context [shl_align ?a ?b ?c] => destruct (shl_align a b c)
  end.
  apply binary_round_aux_sign. reflexivity.
Qed.

Lemma not_negative_ltb (v : float) :
  not_negative (Prim2SF v) -> (v <? 0) = false.
Proof.
  rewrite FloatAxioms.ltb_spec. change (Prim2SF 0) with (S754_zero false).
  destruct (Prim2SF v) as [s | s | | s m e]; try (destruct s); cbn; auto;
    contradiction.
Qed.

Lemma sum_of_squares_sign (a b c : float) :
  (a * a + b * b + c * c <? 0) = false.
Proof.
  apply not_negative_ltb.
  rewrite !FloatAxioms.add_spec, !FloatAxioms.mul_spec.
  repeat apply SFadd_sign; apply SFmul_square_sign.
Qed.

End FloatSign.

(** ** Exact sums of six equal coordinates

    A coordinate [v = 8n * 2^e] with a 50-bit [n] has three spare
    significand bits, so [2v] to [6v] are binary64 numbers: every
    addition of the six-fold sum is exact, and so is the division by 6.
    The facts are read off the bit-level specification of the primitive
    operations. *)

Section ExactRounding.

#[local] Open Scope Z_scope.

















Section SixCopies.

Variables (s : bool) (n : positive) (e : Z).
Hypothesis Hn : digits2_pos n = 50%positive.
Hypothesis He : -1073 <= e <= 968.

Abbreviation m := (n~0~0~0)%positive.
Abbreviation T := (n~0 + n)%positive.
Abbreviation U := (n~0~0 + n)%positive.











(** *** Differences of consecutive multiples *)


















End SixCopies.

End ExactRounding.

Section ExactMean.





End ExactMean.

(** ** The smoothing window *)

Section SmoothingWindow.

Import HandTracker.
#[local] Open Scope nat_scope.

Context {py : Builtins}.

Lemma tl_skipn {A : Type} (k : nat) (l : list A) :
  tl (skipn k l) = skipn (S k) l.
Proof.
  revert l. induction k as [|k IH]; intros [|a l]; cbn; try reflexivity.
  apply IH.
Qed.

Lemma tl_app_nonempty {A : Type} (l : list A) (a : A) :
  l <> [] -> tl (l ++ [a]) = tl l ++ [a].
Proof. destruct l; [congruence | reflexivity]. Qed.

Lemma smooth_history (self : t) (current : list Landmark) :
  landmark_history (fst (_smooth_landmarks self current))
  = push_history (landmark_history self) current.
Proof.
  unfold _smooth_landmarks.
  destruct (length (push_history (landmark_history self) current) <? 2)%nat;
    reflexivity.
Qed.

Lemma feed_snoc (self : t) (samples : list (list Landmark))
    (current : list Landmark) :
  feed self (samples ++ [current])
  = fst (_smooth_landmarks (feed self samples) current).
Proof. unfold feed. rewrite fold_left_app. reflexivity. Qed.

(** Appending below capacity keeps everything; at capacity the head goes. *)
Lemma push_history_cases (history : list (list Landmark))
    (current : list Landmark) :
  (length history < history_size ->
   push_history history current = history ++ [current]) /\
  (history_size <= length history ->
   push_history history current = tl history ++ [current]).
Proof.
  unfold push_history, history_size. rewrite length_app. cbn [length].
  split; intros H.
  - destruct (Nat.ltb_spec 6 (length history + 1)); [lia | reflexivity].
  - destruct (Nat.ltb_spec 6 (length history + 1)); [|lia].
    apply tl_app_nonempty. destruct history; [cbn in H; lia | discriminate].
Qed.

(** After any run the window holds exactly the most recent samples. *)
Lemma feed_history (samples : list (list Landmark)) :
  landmark_history (feed init samples)
  = skipn (length samples - history_size) samples.
Proof.
  induction samples as [|current samples IH] using rev_ind; [reflexivity|].
  rewrite feed_snoc, smooth_history, IH, length_app. cbn [length].
  unfold history_size in *.
  destruct (Nat.le_gt_cases 6 (length samples)) as [Hfull | Hshort].
  - rewrite (proj2 (push_history_cases _ current))
      by (unfold history_size; rewrite length_skipn; lia).
    rewrite tl_skipn, skipn_app.
    replace (S (length samples - 6)) with (length samples + 1 - 6) by lia.
    replace (length samples + 1 - 6 - length samples) with 0 by lia.
    reflexivity.
  - replace (length samples - 6) with 0 by lia.
    replace (length samples + 1 - 6) with 0 by lia.
    cbn [skipn].
    apply push_history_cases. unfold history_size. lia.
Qed.

(** C7. However long the run of smoothing calls, the window holds at
    most [history_size = 6] samples after each call: it is exactly the
    last six samples fed (all of them while there are fewer), in arrival
    order.  A call that finds the window full drops its oldest entry and
    appends the new sample; a call that finds room only appends. *)
Theorem smoothing_window_bounded_fifo :
  forall (samples : list (list Landmark)) (current : list Landmark),
    let before := landmark_history (feed init samples) in
    let after := landmark_history (feed init (samples ++ [current])) in
    length after <= history_size /\
    after = skipn (length (samples ++ [current]) - history_size)
                  (samples ++ [current]) /\
    (length before = history_size -> after = tl before ++ [current]) /\
    (length before < history_size -> after = before ++ [current]).
Proof.
  intros samples current before after. subst before after.
  split; [|split; [|split]].
  - rewrite feed_history, length_skipn. unfold history_size. lia.
  - apply feed_history.
  - intros H. rewrite feed_snoc, smooth_history.
    apply push_history_cases. lia.
  - intros H. rewrite feed_snoc, smooth_history.
    apply push_history_cases. exact H.
Qed.

End SmoothingWindow.

(** ** Smoothing a run of identical samples *)

Section IdenticalSamples.

Import HandTracker.
#[local] Open Scope nat_scope.

Context {py : Builtins}.








End IdenticalSamples.

(** ** The classifier on a full hand of 21 landmarks *)

Section Classifier.

Import GestureRecognizer.

Context {py : Builtins}.

(** [math.sqrt] never raises inside [_calculate_distance]. *)
Lemma calculate_distance_ok (point1 point2 : Landmark) :
  _calculate_distance point1 point2 = Ok (distance point1 point2).
Proof.
  unfold _calculate_distance, distance, math_sqrt.
  rewrite sum_of_squares_sign. reflexivity.
Qed.

(** Names the 21 entries of a landmark list of known length. *)
Ltac explode_landmarks lms Hlen :=
  do 21 (let lm := fresh "lm" in
         destruct lms as [|lm lms]; [discriminate Hlen|]);
  destruct lms; [clear Hlen | discriminate Hlen].

(** With 21 landmarks no index of [_detect_fingers_up] is out of range. *)
Lemma detect_fingers_up_total (lms : list Landmark) :
  length lms = 21%nat ->
  let lm i := nth i lms (mkLandmark 0 0 0) in
  _detect_fingers_up lms
  = Ok (mkFingers (x (lm 3%nat) <? x (lm 4%nat))
                  (y (lm 8%nat) <? y (lm 6%nat))
                  (y (lm 12%nat) <? y (lm 10%nat))
                  (y (lm 16%nat) <? y (lm 14%nat))
                  (y (lm 20%nat) <? y (lm 18%nat))).
Proof.
  intros Hlen. explode_landmarks lms Hlen. reflexivity.
Qed.

(** With 21 landmarks [_classify_gesture] returns one of its five
    dictionaries, whatever the finger states. *)
Lemma classify_gesture_total (fingers_up : Fingers) (lms : list Landmark)
    (hand : Hand) :
  length lms = 21%nat ->
  exists g, _classify_gesture fingers_up lms hand = Ok g
            /\ In (type g) gesture_types.
Proof.
  intros Hlen. explode_landmarks lms Hlen.
  unfold _classify_gesture. cbn [getitem nth_error bind].
  rewrite !calculate_distance_ok. cbn [bind].
  repeat match goal with
         | |- context [if ?b then _ else _] => destruct b
         end;
    eexists; (split; [reflexivity|]); cbn; tauto.
Qed.

(** C1. A hand of 21 landmarks whose index finger is extended
    ([tip.y < PIP.y]), whose middle, ring and pinky fingers are not, and
    whose thumb tip and index tip are at Euclidean distance at least
    [pinch_threshold = 0.05] is classified as ['point'], not ['pinch'];
    the position is the index tip's [x] and [y], the direction is index
    tip minus landmark 5. *)
Theorem point_has_priority :
  forall hand : Hand,
    let lm := landmark hand in
    length (landmarks hand) = 21%nat ->
    (y (lm 8%nat) <? y (lm 6%nat)) = true ->
    (y (lm 12%nat) <? y (lm 10%nat)) = false ->
    (y (lm 16%nat) <? y (lm 14%nat)) = false ->
    (y (lm 20%nat) <? y (lm 18%nat)) = false ->
    (pinch_threshold <=? distance (lm 4%nat) (lm 8%nat)) = true ->
    candidate hand
    = Ok (mkGesture "point"
            [("position"%string, xy (x (lm 8%nat)) (y (lm 8%nat)));
             ("direction"%string,
              xy (x (lm 8%nat) - x (lm 5%nat))
                 (y (lm 8%nat) - y (lm 5%nat)))]).
Proof.
  intros [lms lbl w i t m] lm Hlen Hindex Hmiddle Hring Hpinky Hdist.
  subst lm. unfold landmark in *. cbn [landmarks] in *.
  explode_landmarks lms Hlen. cbn [nth] in *.
  unfold candidate, _detect_fingers_up, _classify_gesture.
  cbn [landmarks getitem nth_error bind thumb index middle ring pinky].
  rewrite calculate_distance_ok. cbn [bind].
  rewrite Hindex, Hmiddle, Hring, Hpinky, Hdist. reflexivity.
Qed.

(** C2. A hand of 21 landmarks whose thumb tip and index tip are at
    Euclidean distance strictly below [pinch_threshold = 0.05] is
    classified as ['pinch'] whatever the finger states; the dictionary
    carries that distance and the midpoint of the two tips. *)
Theorem pinch_below_threshold :
  forall hand : Hand,
    let lm := landmark hand in
    let d := distance (lm 4%nat) (lm 8%nat) in
    length (landmarks hand) = 21%nat ->
    (d <? pinch_threshold) = true ->
    candidate hand
    = Ok (mkGesture "pinch"
            [("distance"%string, VFloat d);
             ("position"%string,
              xy ((x (lm 4%nat) + x (lm 8%nat)) / 2)
                 ((y (lm 4%nat) + y (lm 8%nat)) / 2))]).
Proof.
  intros [lms lbl w i t m] lm d Hlen Hdist.
  pose proof (ltb_leb_rev _ _ Hdist) as Hnot.
  subst d lm. unfold landmark in *. cbn [landmarks] in *.
  explode_landmarks lms Hlen. cbn [nth] in *.
  unfold candidate, _detect_fingers_up, _classify_gesture.
  cbn [landmarks getitem nth_error bind thumb index middle ring pinky].
  rewrite calculate_distance_ok. cbn [bind].
  rewrite Hdist, Hnot, !andb_false_r. reflexivity.
Qed.

End Classifier.

(** ** The confidence state machine of [recognize] *)

Section Stabilizer.

Import GestureRecognizer.

Context {py : Builtins}.

Lemma same_type_refl (ty : string) : same_type ty (Some ty) = true.
Proof. apply String.eqb_refl. Qed.

(** After the update, [last_gesture] is the candidate's type. *)
Lemma update_confidence_last (self : t) (gesture : Gesture) :
  same_type (type gesture) (last_gesture (update_confidence self gesture))
  = true.
Proof.
  unfold update_confidence.
  destruct (same_type (type gesture) (last_gesture self)) eqn:E;
    cbn [last_gesture]; [exact E | apply same_type_refl].
Qed.

Lemma emit_after_update (self : t) (gesture : Gesture) :
  emit (update_confidence self gesture) gesture
  = emit_by_threshold (update_confidence self gesture) gesture.
Proof.
  unfold emit, emit_by_threshold. cbn [setitem type].
  rewrite update_confidence_last. cbn [negb]. rewrite orb_false_r.
  destruct (negb (type gesture =? "none")%string); cbn [andb]; reflexivity.
Qed.

(** C3. At line 61 the disjunct [gesture['type'] != self.last_gesture]
    is false in every call, because lines 51-55 have already made
    [last_gesture] equal to the candidate's type; so [recognize] returns
    the same result and leaves the same state as the variant that emits
    the candidate exactly when the confidence is at least
    [min_confidence = 0.2]. *)
Theorem type_change_disjunct_is_dead :
  (forall (self : t) (gesture : Gesture),
     negb (same_type (type gesture)
             (last_gesture (update_confidence self gesture))) = false) /\
  (forall (self : t) (hands_data : option (list Hand)),
     recognize self hands_data = recognize_by_threshold self hands_data).
Proof.
  split.
  - intros self gesture. rewrite update_confidence_last. reflexivity.
  - intros self [[|hand others]|]; try reflexivity.
    unfold recognize, recognize_by_threshold, stabilize.
    destruct (candidate hand) as [gesture|e]; [|reflexivity].
    rewrite emit_after_update. reflexivity.
Qed.

(** What [emit] returns is the candidate with a confidence attached or
    the canonical no-gesture dictionary. *)
Lemma emit_type (self : t) (gesture : Gesture) :
  type (emit self gesture) = type gesture
  \/ emit self gesture = none_event.
Proof.
  unfold emit.
  destruct (negb (type gesture =? "none")%string); [|now right].
  match goal with |- context [if ?b then _ else _] => destruct b end;
    [now left | now right].
Qed.

(** C10. For a non-empty [hands_data] whose primary hand has 21
    landmarks, [recognize] raises nothing: every index it reads is in
    range, and it returns a gesture dictionary whose ['type'] is one of
    ['point'], ['pinch'], ['two_fingers'], ['open_palm'], ['none']. *)
Theorem recognize_total :
  forall (self : t) (hand : Hand) (others : list Hand),
    length (landmarks hand) = 21%nat ->
    exists (self' : t) (g : Gesture),
      recognize self (Some (hand :: others)) = (self', Ok (Some g))
      /\ In (type g) gesture_types.
Proof.
  intros self hand others Hlen.
  unfold recognize, candidate.
  rewrite (detect_fingers_up_total _ Hlen). cbn [bind].
  destruct (classify_gesture_total
              (mkFingers (x (nth 3 (landmarks hand) (mkLandmark 0 0 0))
                          <? x (nth 4 (landmarks hand) (mkLandmark 0 0 0)))
                         (y (nth 8 (landmarks hand) (mkLandmark 0 0 0))
                          <? y (nth 6 (landmarks hand) (mkLandmark 0 0 0)))
                         (y (nth 12 (landmarks hand) (mkLandmark 0 0 0))
                          <? y (nth 10 (landmarks hand) (mkLandmark 0 0 0)))
                         (y (nth 16 (landmarks hand) (mkLandmark 0 0 0))
                          <? y (nth 14 (landmarks hand) (mkLandmark 0 0 0)))
                         (y (nth 20 (landmarks hand) (mkLandmark 0 0 0))
                          <? y (nth 18 (landmarks hand) (mkLandmark 0 0 0))))
              (landmarks hand) hand Hlen) as [g [-> Hg]].
  unfold stabilize.
  exists (update_confidence self g), (emit (update_confidence self g) g).
  split; [reflexivity|].
  destruct (emit_type (update_confidence self g) g) as [-> | ->];
    [exact Hg | cbn; tauto].
Qed.

(** Both updates map a confidence level to a confidence level. *)
Lemma confidence_levels_closed (c : float) :
  In c confidence_levels ->
  In (Py.min 1.0 (c + confidence_increment)) confidence_levels /\
  In (Py.max 0.0 (c - confidence_decrement)) confidence_levels.
Proof.
  unfold confidence_levels. cbn [In]. intros H.
  repeat (destruct H as [<- | H]; [vm_compute; tauto|]).
  contradiction.
Qed.

Lemma confidence_levels_bounded (c : float) :
  In c confidence_levels -> (0 <=? c) = true /\ (c <=? 1) = true.
Proof.
  unfold confidence_levels. cbn [In]. intros H.
  repeat (destruct H as [<- | H]; [vm_compute; tauto|]).
  contradiction.
Qed.

Lemma recognize_confidence_level (self : t)
    (hands_data : option (list Hand)) :
  In (gesture_confidence self) confidence_levels ->
  In (gesture_confidence (fst (recognize self hands_data))) confidence_levels.
Proof.
  intros H. destruct hands_data as [[|hand others]|]; try exact H.
  unfold recognize. destruct (candidate hand) as [gesture|e]; [|exact H].
  cbn [stabilize fst]. unfold update_confidence.
  destruct (same_type (type gesture) (last_gesture self));
    cbn [gesture_confidence]; apply confidence_levels_closed; exact H.
Qed.

Lemma run_confidence_level (cycles : list (option (list Hand))) :
  forall self : t,
    In (gesture_confidence self) confidence_levels ->
    In (gesture_confidence (fst (run self cycles))) confidence_levels.
Proof.
  induction cycles as [|hands_data later IH]; intros self H; [exact H|].
  cbn [run].
  pose proof (recognize_confidence_level self hands_data H) as H1.
  destruct (recognize self hands_data) as [self1 out].
  specialize (IH self1 H1).
  destruct (run self1 later) as [self2 outs]. exact IH.
Qed.

(** C6. After any sequence of [recognize] calls on a fresh recognizer,
    whatever the hands passed, [gesture_confidence] lies in the closed
    interval from 0 to 1. *)
Theorem confidence_within_unit_interval :
  forall cycles : list (option (list Hand)),
    let c := gesture_confidence (fst (run init cycles)) in
    (0 <=? c) = true /\ (c <=? 1) = true.
Proof.
  intros cycles c. apply confidence_levels_bounded.
  apply run_confidence_level. cbn. tauto.
Qed.

(** C4, as the code has it.  On a fresh recognizer the first pinch
    candidate differs from [last_gesture = None], so the first call takes
    the decrement branch and leaves the confidence at 0.  Five
    consecutive pinch candidates therefore end at four increments,
    0.6 in binary64; the first two calls return the canonical no-gesture
    dictionary (confidence 0 and 0.15, below 0.2) and the third to fifth
    return the pinch candidate with confidence 0.3,
    0.44999999999999996 and 0.6. *)
Theorem five_pinch_cycles :
  forall (h1 h2 h3 h4 h5 : Hand) (g1 g2 g3 g4 g5 : Gesture),
    candidate h1 = Ok g1 -> type g1 = "pinch"%string ->
    candidate h2 = Ok g2 -> type g2 = "pinch"%string ->
    candidate h3 = Ok g3 -> type g3 = "pinch"%string ->
    candidate h4 = Ok g4 -> type g4 = "pinch"%string ->
    candidate h5 = Ok g5 -> type g5 = "pinch"%string ->
    run init [Some [h1]; Some [h2]; Some [h3]; Some [h4]; Some [h5]]
    = (mk (Some "pinch"%string) 0.6,
       [Ok (Some none_event);
        Ok (Some none_event);
        Ok (Some (setitem g3 "confidence" (VFloat 0.3)));
        Ok (Some (setitem g4 "confidence" (VFloat 0.44999999999999996)));
        Ok (Some (setitem g5 "confidence" (VFloat 0.6)))]).
Proof.
  intros h1 h2 h3 h4 h5 [ty1 r1] [ty2 r2] [ty3 r3] [ty4 r4] [ty5 r5]
    C1 T1 C2 T2 C3 T3 C4 T4 C5 T5.
  cbn [type] in *. subst ty1 ty2 ty3 ty4 ty5.
  cbn [run recognize]. rewrite C1, C2, C3, C4, C5. reflexivity.
Qed.

End Stabilizer.

(** ** The frame loop *)

Section FrameLoop.

Import App.

Context {py : Builtins}.

(** C5, as the code has it.  When the detector reports no hand
    ([multi_hand_landmarks] is [None] or empty), a cycle raises nothing
    and changes neither the smoothing window nor the recognizer:
    [get_landmarks] returns [None] before any smoothing, [recognize] is
    not called, and the emitted [data] has ['landmarks'] and ['gesture']
    both [None].  [recognize] itself, given [None] or an empty list,
    returns [None] and leaves its state untouched. *)
Theorem no_hand_cycle :
  forall (s : Session) (results : HandTracker.Results),
    HandTracker.multi_hand_landmarks results = None
    \/ HandTracker.multi_hand_landmarks results = Some [] ->
    track_and_recognize s results = (s, Ok (mkFrameData None None)) /\
    GestureRecognizer.recognize (gesture_recognizer s) None
    = (gesture_recognizer s, Ok None) /\
    GestureRecognizer.recognize (gesture_recognizer s) (Some [])
    = (gesture_recognizer s, Ok None).
Proof.
  intros [tracker recognizer] [hands labels] H. cbn in H.
  split; [|split; reflexivity].
  unfold track_and_recognize, HandTracker.get_landmarks.
  cbn [HandTracker.multi_hand_landmarks hand_tracker gesture_recognizer].
  destruct H as [-> | ->]; reflexivity.
Qed.


End FrameLoop.

(** ** Concrete runs

    The statements above hold for either summation of [sum]; the runs
    below fix one where the result depends on it. *)

Section ConcreteRuns.




Lemma point_has_priority_witness :
  GestureRecognizer.candidate (py := before_3_12) pointing_hand
  = Ok (GestureRecognizer.mkGesture "point"
          [("position"%string, GestureRecognizer.xy 0.5 0.2);
           ("direction"%string, GestureRecognizer.xy 0 (-0.3))]).
Proof.
  exact (point_has_priority (py := before_3_12) pointing_hand
           eq_refl eq_refl eq_refl eq_refl eq_refl eq_refl).
Defined.

(** The candidate of [pinching_hand], by evaluation. *)
Lemma candidate_of_pinching_hand :
  GestureRecognizer.candidate (py := before_3_12) pinching_hand
  = Ok (GestureRecognizer.mkGesture "pinch"
          [("distance"%string, VFloat 0.01999999999999999);
           ("position"%string,
            GestureRecognizer.xy 0.5 0.21000000000000002)]).
Proof. vm_compute. reflexivity. Qed.

Lemma pinch_below_threshold_witness :
  GestureRecognizer.candidate (py := before_3_12) pinching_hand
  = Ok (GestureRecognizer.mkGesture "pinch"
          [("distance"%string, VFloat 0.01999999999999999);
           ("position"%string,
            GestureRecognizer.xy 0.5 0.21000000000000002)]).
Proof.
  exact (pinch_below_threshold (py := before_3_12) pinching_hand
           eq_refl eq_refl).
Defined.

Lemma recognize_total_witness :
  exists (self' : GestureRecognizer.t) (g : GestureRecognizer.Gesture),
    GestureRecognizer.recognize (py := before_3_12)
      GestureRecognizer.init (Some [pointing_hand])
    = (self', Ok (Some g))
    /\ In (GestureRecognizer.type g) gesture_types.
Proof.
  exact (recognize_total (py := before_3_12) GestureRecognizer.init
           pointing_hand [] eq_refl).
Defined.

Lemma five_pinch_cycles_witness :
  exists g : GestureRecognizer.Gesture,
    GestureRecognizer.candidate (py := before_3_12) pinching_hand = Ok g /\
    GestureRecognizer.run (py := before_3_12) GestureRecognizer.init
      (repeat (Some [pinching_hand]) 5)
    = (GestureRecognizer.mk (Some "pinch"%string) 0.6,
       [Ok (Some GestureRecognizer.none_event);
        Ok (Some GestureRecognizer.none_event);
        Ok (Some (GestureRecognizer.setitem g "confidence" (VFloat 0.3)));
        Ok (Some (GestureRecognizer.setitem g "confidence"
                    (VFloat 0.44999999999999996)));
        Ok (Some (GestureRecognizer.setitem g "confidence" (VFloat 0.6)))]).
Proof.
  eexists. split; [exact candidate_of_pinching_hand|].
  exact (five_pinch_cycles (py := before_3_12) _ _ _ _ _ _ _ _ _ _
           candidate_of_pinching_hand eq_refl
           candidate_of_pinching_hand eq_refl
           candidate_of_pinching_hand eq_refl
           candidate_of_pinching_hand eq_refl
           candidate_of_pinching_hand eq_refl).
Defined.

(** C4 as stated fails: after five pinch cycles the confidence is 0.6,
    not 0.75, and the second cycle still returns the no-gesture
    dictionary although its candidate is a pinch. *)
Lemma five_pinch_cycles_not_as_stated :
  let r := GestureRecognizer.run (py := before_3_12) GestureRecognizer.init
             (repeat (Some [pinching_hand]) 5) in
  GestureRecognizer.gesture_confidence (fst r) = 0.6 /\
  GestureRecognizer.gesture_confidence (fst r) <> 0.75 /\
  nth 1 (snd r) (Raise IndexError) = Ok (Some GestureRecognizer.none_event).
Proof.
  cbv zeta. split; [|split].
  - vm_compute. reflexivity.
  - apply float_neq; vm_compute; reflexivity.
  - vm_compute. reflexivity.
Qed.

Lemma no_hand_cycle_witness :
  App.track_and_recognize (py := before_3_12)
    (App.mkSession HandTracker.init GestureRecognizer.init)
    (HandTracker.mkResults None [])
  = (App.mkSession HandTracker.init GestureRecognizer.init,
     Ok (App.mkFrameData None None)).
Proof.
  exact (proj1 (no_hand_cycle (py := before_3_12)
                  (App.mkSession HandTracker.init GestureRecognizer.init)
                  (HandTracker.mkResults None []) (or_introl eq_refl))).
Defined.

(** C5 as stated fails: with no hand the ['gesture'] entry is [None];
    no dictionary with type ['none'] and confidence 0 is emitted. *)
Lemma no_hand_gesture_is_absent :
  let out := snd (App.track_and_recognize (py := before_3_12)
                    (App.mkSession HandTracker.init GestureRecognizer.init)
                    (HandTracker.mkResults None [])) in
  ~ exists (data : App.FrameData) (g : GestureRecognizer.Gesture),
      out = Ok data /\ App.data_gesture data = Some g
      /\ GestureRecognizer.type g = "none"%string
      /\ Py.get (GestureRecognizer.rest g) "confidence" = Some (VInt 0).
Proof.
  cbv zeta. intros [data [g [Hout [Hg _]]]].
  cbn in Hout. injection Hout as <-. discriminate Hg.
Qed.

End ConcreteRuns.

(** * Further properties of the code *)

(** ** The remaining branches of the classifier *)

Section ClassifierBranches.

Import GestureRecognizer.

Context {py : Builtins}.

(** Names the first 21 entries of a landmark list that has them. *)
Ltac first_21 lms Hlen :=
  do 21 (let lm := fresh "lm" in
         destruct lms as [|lm lms]; [cbn [length] in Hlen; lia|]);
  clear Hlen.

(** Names all entries of a landmark list with fewer than 21. *)
Ltac fewer_than_21 lms Hlen tac :=
  do 21 (destruct lms as [|? lms]; [tac|]);
  cbn [length] in Hlen; lia.

(** X1. A hand of 21 landmarks with index and middle fingers extended,
    ring and pinky not, and the thumb tip not within [pinch_threshold]
    of the index tip is classified as ['two_fingers'], with the midpoint
    of the index and middle tips and the distance between them. *)
Theorem two_fingers_branch :
  forall hand : Hand,
    let lm := landmark hand in
    length (landmarks hand) = 21%nat ->
    (y (lm 8%nat) <? y (lm 6%nat)) = true ->
    (y (lm 12%nat) <? y (lm 10%nat)) = true ->
    (y (lm 16%nat) <? y (lm 14%nat)) = false ->
    (y (lm 20%nat) <? y (lm 18%nat)) = false ->
    (distance (lm 4%nat) (lm 8%nat) <? pinch_threshold) = false ->
    candidate hand
    = Ok (mkGesture "two_fingers"
            [("position"%string,
              xy ((x (lm 8%nat) + x (lm 12%nat)) / 2)
                 ((y (lm 8%nat) + y (lm 12%nat)) / 2));
             ("distance"%string,
              VFloat (distance (lm 8%nat) (lm 12%nat)))]).
Proof.
  intros [lms lbl w i t m] lm Hlen Hindex Hmiddle Hring Hpinky Hdist.
  subst lm. unfold landmark in *. cbn [landmarks] in *.
  assert (Hlen' : (21 <= length lms)%nat) by lia.
  assert (Htail : length (skipn 21 lms) = 0%nat)
    by (rewrite length_skipn; lia).
  first_21 lms Hlen'. cbn [skipn] in Htail.
  destruct lms; [|discriminate Htail]. cbn [nth] in *.
  unfold candidate, _detect_fingers_up, _classify_gesture.
  cbn [landmarks getitem nth_error bind thumb index middle ring pinky].
  rewrite !calculate_distance_ok. cbn [bind].
  rewrite Hindex, Hmiddle, Hring, Hpinky, Hdist. cbn [negb andb].
  reflexivity.
Qed.

(** X2. A hand of 21 landmarks with at least four of its five digits
    extended and the thumb tip not within [pinch_threshold] of the index
    tip is classified as ['open_palm'], with the mean of landmarks 0 to
    4 as position and the count of extended digits. *)
Theorem open_palm_branch :
  forall hand : Hand,
    let lm := landmark hand in
    length (landmarks hand) = 21%nat ->
    (4 <=? extended_count hand)%Z = true ->
    (distance (lm 4%nat) (lm 8%nat) <? pinch_threshold) = false ->
    candidate hand
    = Ok (mkGesture "open_palm"
            [("position"%string,
              xy (Py.sum (map x (firstn 5 (landmarks hand))) / 5)
                 (Py.sum (map y (firstn 5 (landmarks hand))) / 5));
             ("fingers_extended"%string, VInt (extended_count hand))]).
Proof.
  intros [lms lbl w i t m] lm Hlen Hcount Hdist.
  subst lm. unfold extended_count, landmark in *. cbn [landmarks] in *.
  assert (Hlen' : (21 <= length lms)%nat) by lia.
  assert (Htail : length (skipn 21 lms) = 0%nat)
    by (rewrite length_skipn; lia).
  first_21 lms Hlen'. cbn [skipn] in Htail.
  destruct lms; [|discriminate Htail]. cbn [nth] in *.
  unfold candidate, _detect_fingers_up, _classify_gesture.
  cbn [landmarks getitem nth_error bind thumb index middle ring pinky].
  rewrite !calculate_distance_ok. cbn [bind].
  rewrite Hdist, Hcount.
  destruct (x lm2 <? x lm3), (y lm7 <? y lm5), (y lm11 <? y lm9),
    (y lm15 <? y lm13), (y lm19 <? y lm17);
    try discriminate Hcount; cbn [negb andb]; rewrite ?andb_false_r;
    reflexivity.
Qed.

(** X3. Whenever the classifier returns, its candidate is a pinch
    exactly when the thumb tip is within [pinch_threshold] of the index
    tip, and a point exactly when the index finger alone of the four is
    extended and the two tips are at least [pinch_threshold] apart. *)
Theorem pinch_and_point_exactly :
  forall (hand : Hand) (g : Gesture),
    let lm := landmark hand in
    candidate hand = Ok g ->
    (type g = "pinch"%string <->
     (distance (lm 4%nat) (lm 8%nat) <? pinch_threshold) = true) /\
    (type g = "point"%string <->
     (y (lm 8%nat) <? y (lm 6%nat)) = true /\
     (y (lm 12%nat) <? y (lm 10%nat)) = false /\
     (y (lm 16%nat) <? y (lm 14%nat)) = false /\
     (y (lm 20%nat) <? y (lm 18%nat)) = false /\
     (pinch_threshold <=? distance (lm 4%nat) (lm 8%nat)) = true).
Proof.
  intros [lms lbl w i t m] g lm. subst lm.
  unfold landmark, candidate. cbn [landmarks].
  destruct (Nat.lt_ge_cases (length lms) 21) as [Hshort | Hlen].
  { intros H. exfalso. revert H.
    fewer_than_21 lms Hshort ltac:(cbn; discriminate). }
  first_21 lms Hlen. cbn [nth].
  unfold _detect_fingers_up, _classify_gesture.
  cbn [landmarks getitem nth_error bind thumb index middle ring pinky].
  rewrite !calculate_distance_ok. cbn [bind].
  destruct (distance lm3 lm7 <? pinch_threshold) eqn:Hlt.
  - rewrite (ltb_leb_rev _ _ Hlt), !andb_false_r.
    intros [= <-]. cbn [type]. split; split; try tauto; try discriminate.
    intros (_ & _ & _ & _ & H). discriminate H.
  - destruct (pinch_threshold <=? distance lm3 lm7),
      (y lm7 <? y lm5), (y lm11 <? y lm9), (y lm15 <? y lm13),
      (y lm19 <? y lm17); cbn [negb andb];
      repeat match goal with
             | |- context [if ?b then _ else _] => destruct b
             end;
      intros [= <-]; cbn [type];
      (split; split; try discriminate; try tauto;
       intros H; decompose [and] H; discriminate).
Qed.

(** The classifier raises exactly on hands with fewer than 21
    landmarks, and then it is an [IndexError]. *)
Lemma candidate_raises (hand : Hand) :
  ((length (landmarks hand) < 21)%nat -> candidate hand = Raise IndexError)
  /\ ((21 <= length (landmarks hand))%nat ->
      exists g, candidate hand = Ok g /\ In (type g) gesture_types).
Proof.
  destruct hand as [lms lbl w i t m]. unfold candidate. cbn [landmarks].
  split; intros Hlen.
  - fewer_than_21 lms Hlen ltac:(reflexivity).
  - first_21 lms Hlen.
    unfold _detect_fingers_up, _classify_gesture.
    cbn [landmarks getitem nth_error bind thumb index middle ring pinky].
    rewrite !calculate_distance_ok. cbn [bind].
    repeat match goal with
           | |- context [if ?b then _ else _] => destruct b
           end;
      eexists; (split; [reflexivity|]); cbn; tauto.
Qed.

(** X4. [recognize] raises exactly when the primary hand has fewer than
    21 landmarks; the exception is an [IndexError], and the recognizer
    is left as it was (neither [last_gesture] nor the confidence is
    touched).  With 21 or more it returns a gesture dictionary. *)
Theorem recognize_raises_on_short_hand :
  forall (self : t) (hand : Hand) (others : list Hand),
    ((length (landmarks hand) < 21)%nat ->
     recognize self (Some (hand :: others)) = (self, Raise IndexError)) /\
    ((21 <= length (landmarks hand))%nat ->
     exists (self' : t) (g : Gesture),
       recognize self (Some (hand :: others)) = (self', Ok (Some g))
       /\ In (type g) gesture_types).
Proof.
  intros self hand others. unfold recognize.
  destruct (candidate_raises hand) as [Hshort Hlong].
  split; intros Hlen.
  - rewrite (Hshort Hlen). reflexivity.
  - destruct (Hlong Hlen) as [g [-> Hg]]. unfold stabilize.
    exists (update_confidence self g), (emit (update_confidence self g) g).
    split; [reflexivity|].
    destruct (emit_type (update_confidence self g) g) as [-> | ->];
      [exact Hg | cbn; tauto].
Qed.

(** X5. The classifier reads the first 21 landmarks of the primary hand
    and nothing else: two hands that agree on them get the same
    candidate, whatever their handedness label, their other entries and
    any further landmarks, and [recognize] ignores all hands after the
    first. *)
Theorem candidate_reads_21_landmarks :
  forall (self : t) (hand1 hand2 : Hand) (others1 others2 : list Hand),
    firstn 21 (landmarks hand1) = firstn 21 (landmarks hand2) ->
    candidate hand1 = candidate hand2 /\
    recognize self (Some (hand1 :: others1))
    = recognize self (Some (hand2 :: others2)).
Proof.
  intros self [l1 lbl1 w1 i1 t1 m1] [l2 lbl2 w2 i2 t2 m2] o1 o2.
  cbn [landmarks]. intros H.
  assert (C : candidate (mkHand l1 lbl1 w1 i1 t1 m1)
              = candidate (mkHand l2 lbl2 w2 i2 t2 m2)).
  { unfold candidate. cbn [landmarks].
    destruct (Nat.lt_ge_cases (length l1) 21) as [Hs1 | Hl1].
    - assert (E1 : firstn 21 l1 = l1) by (apply firstn_all2; lia).
      assert (Hs2 : (length l2 < 21)%nat).
      { apply (f_equal (@length _)) in H. rewrite !length_firstn in H. lia. }
      assert (E2 : firstn 21 l2 = l2) by (apply firstn_all2; lia).
      rewrite E1, E2 in H. subst l2. reflexivity.
    - assert (Hl2 : (21 <= length l2)%nat).
      { apply (f_equal (@length _)) in H. rewrite !length_firstn in H. lia. }
      first_21 l1 Hl1. first_21 l2 Hl2. cbn [firstn] in H.
      injection H as -> -> -> -> -> -> -> -> -> -> -> -> -> -> -> -> -> ->
        -> -> ->.
      reflexivity. }
  split; [exact C|]. unfold recognize. rewrite C. reflexivity.
Qed.

End ClassifierBranches.

(** ** The distance of two landmarks *)

Section Distance.

Import GestureRecognizer.

(** Rounding treats a datum and its opposite alike. *)
Lemma binary_round_aux_magnitude (s1 s2 : bool) (mx ex : Z) (lx : location) :
  same_magnitude (binary_round_aux prec emax s1 mx ex lx)
                 (binary_round_aux prec emax s2 mx ex lx).
Proof.
  unfold same_magnitude, binary_round_aux.
  destruct (shr_fexp prec emax mx ex lx) as [mrs' e'].
  destruct (shr_fexp prec emax _ e' loc_Exact) as [mrs'' e''].
  destruct (shr_m mrs'') as [|m|m]; [reflexivity| |reflexivity].
  destruct (e'' <=? emax - prec)%Z; reflexivity.
Qed.

Lemma binary_normalize_opp (v : Z) (e : Z) :
  same_magnitude (binary_normalize prec emax v e false)
                 (binary_normalize prec emax (- v) e false).
Proof.
  destruct v as [|m|m]; cbn [Z.opp binary_normalize]; [reflexivity| |];
    unfold binary_round;
    destruct (shl_align m e _) as [mz ez];
    apply binary_round_aux_magnitude.
Qed.

(** [a - b] and [b - a] differ at most in sign. *)
Lemma SFsub_swap (a b : spec_float) :
  same_magnitude (SF64sub a b) (SF64sub b a).
Proof.
  destruct a as [sa | sa | | sa ma ea], b as [sb | sb | | sb mb eb];
    try (destruct sa); try (destruct sb); try reflexivity.
  all: unfold SF64sub, SFsub; rewrite (Z.min_comm eb ea);
    match goal with
    | |- same_magnitude (binary_normalize _ _ ?u ?e _) (binary_normalize _ _ ?v _ _) =>
        replace v with (- u)%Z by (cbn [cond_Zopp]; lia)
    end;
    apply binary_normalize_opp.
Qed.

(** A square depends on the magnitude only. *)
Lemma SFmul_square_magnitude (v w : spec_float) :
  same_magnitude v w -> SF64mul v v = SF64mul w w.
Proof.
  unfold same_magnitude.
  destruct v as [sv | sv | | sv mv ev], w as [sw | sw | | sw mw ew];
    cbn [SFabs]; intros H; try discriminate H; try reflexivity.
  - destruct sv, sw; reflexivity.
  - destruct sv, sw; reflexivity.
  - injection H as -> ->. destruct sv, sw; reflexivity.
Qed.

Lemma square_of_difference (a b : float) :
  ((a - b) * (a - b) = (b - a) * (b - a))%float.
Proof.
  apply Prim2SF_inj. rewrite !FloatAxioms.mul_spec, !FloatAxioms.sub_spec.
  apply SFmul_square_magnitude, SFsub_swap.
Qed.

(** A square root is never below zero. *)
Lemma sqrt_sign (v : float) : (sqrt v <? 0) = false.
Proof.
  apply not_negative_ltb. rewrite FloatAxioms.sqrt_spec.
  unfold SF64sqrt, SFsqrt.
  destruct (Prim2SF v) as [s | s | | s m e]; try (destruct s); cbn; auto.
  destruct (SFsqrt_core_binary prec emax (Z.pos m) e) as [[mz ez] lz].
  apply binary_round_aux_sign. reflexivity.
Qed.

(** The difference of a finite number with itself is plus zero. *)
Lemma sub_self (a : float) : is_finite a = true -> (a - a = 0)%float.
Proof.
  intros H. apply Prim2SF_inj. rewrite FloatAxioms.sub_spec.
  change (Prim2SF 0) with (S754_zero false).
  unfold is_finite, is_infinity in H.
  rewrite negb_true_iff, orb_false_iff in H. destruct H as [Hnan Hinf].
  rewrite FloatAxioms.eqb_spec, FloatAxioms.abs_spec in Hinf.
  change (Prim2SF infinity) with (S754_infinity false) in Hinf.
  destruct (Prim2SF a) as [s | s | | s m e] eqn:E.
  - destruct s; reflexivity.
  - destruct s; discriminate Hinf.
  - apply is_nan_spec in E. congruence.
  - unfold SF64sub, SFsub. rewrite Z.min_id, Z.sub_diag. reflexivity.
Qed.

(** X6. [_calculate_distance] never raises and its result is never
    negative; it is symmetric in its two points, bit for bit; and two
    points with the same finite coordinates are at distance 0. *)
Theorem calculate_distance_facts :
  forall p q : Landmark,
    _calculate_distance p q = Ok (distance p q) /\
    (distance p q <? 0) = false /\
    distance p q = distance q p /\
    (is_finite (x p) && is_finite (y p) && is_finite (z p) = true ->
     distance p p = 0).
Proof.
  intros p q. split; [apply calculate_distance_ok|].
  split; [apply sqrt_sign|]. split.
  - unfold distance.
    rewrite (square_of_difference (x p) (x q)),
      (square_of_difference (y p) (y q)),
      (square_of_difference (z p) (z q)).
    reflexivity.
  - intros H. apply andb_prop in H. destruct H as [H Hz].
    apply andb_prop in H. destruct H as [Hx Hy].
    unfold distance. rewrite (sub_self _ Hx), (sub_self _ Hy), (sub_self _ Hz).
    reflexivity.
Qed.

End Distance.

(** ** What [recognize] hands back, and how fast *)

Section StabilizerDynamics.

Import GestureRecognizer.

Lemma get_set_same (d : Dict) (k : string) (v : Value) :
  Py.get (Py.set d k v) k = Some v.
Proof.
  induction d as [|[k' v'] d IH]; cbn [Py.set Py.get].
  - rewrite String.eqb_refl. reflexivity.
  - destruct (String.eqb k k') eqn:E; cbn [Py.get]; rewrite E;
      [reflexivity | exact IH].
Qed.

Lemma get_set_other (d : Dict) (k k' : string) (v : Value) :
  k' <> k -> Py.get (Py.set d k v) k' = Py.get d k'.
Proof.
  intros Hk. induction d as [|[k0 v0] d IH]; cbn [Py.set Py.get].
  - apply String.eqb_neq in Hk. rewrite Hk. reflexivity.
  - destruct (String.eqb k k0) eqn:E; cbn [Py.get].
    + apply String.eqb_eq in E. subst k0.
      apply String.eqb_neq in Hk. rewrite Hk. reflexivity.
    + rewrite IH. reflexivity.
Qed.

(** X7. What [recognize] returns for a candidate is one of two things.
    If the candidate's type is not ['none'] and the updated confidence
    is at least [min_confidence], it is the candidate itself with that
    confidence stored under ['confidence'] and every other entry as the
    classifier wrote it.  Otherwise it is exactly
    [{'type': 'none', 'confidence': 0}]: the classifier's own ['none']
    dictionary, with its ['extended_fingers'] count, is never passed
    on. *)
Theorem stabilize_output :
  forall (self : t) (g : Gesture),
    let c := gesture_confidence (fst (stabilize self g)) in
    let out := snd (stabilize self g) in
    (type g <> "none"%string -> (min_confidence <=? c) = true ->
     type out = type g /\
     Py.get (rest out) "confidence" = Some (VFloat c) /\
     forall k : string,
       k <> "confidence"%string -> Py.get (rest out) k = Py.get (rest g) k) /\
    (type g = "none"%string \/ (min_confidence <=? c) = false ->
     out = none_event /\ Py.get (rest out) "extended_fingers" = None).
Proof.
  intros self g c out. subst c out. cbn [stabilize fst snd].
  rewrite emit_after_update. unfold emit_by_threshold. split.
  - intros Hty Hc. apply String.eqb_neq in Hty. rewrite Hty, Hc.
    cbn [negb andb setitem type rest]. split; [reflexivity|].
    split; [apply get_set_same | intros k Hk; apply get_set_other, Hk].
  - intros [Hty | Hc].
    + rewrite Hty. cbn. split; reflexivity.
    + rewrite Hc, andb_false_r. split; reflexivity.
Qed.

Lemma update_same (self : t) (g : Gesture) (ty : string) :
  last_gesture self = Some ty -> type g = ty ->
  update_confidence self g
  = mk (Some ty) (incremented (gesture_confidence self)).
Proof.
  intros Hl Hg. unfold update_confidence. rewrite Hl, Hg, same_type_refl.
  reflexivity.
Qed.

Lemma update_first (self : t) (g : Gesture) :
  In (gesture_confidence self) confidence_levels ->
  last_gesture (update_confidence self g) = Some (type g) /\
  In (gesture_confidence (update_confidence self g)) confidence_levels.
Proof.
  intros H. unfold update_confidence.
  destruct (same_type (type g) (last_gesture self)) eqn:E;
    cbn [last_gesture gesture_confidence].
  - split; [|apply confidence_levels_closed, H].
    unfold same_type in E. destruct (last_gesture self) as [s|];
      [|discriminate]. apply String.eqb_eq in E. congruence.
  - split; [reflexivity | apply confidence_levels_closed, H].
Qed.

(** From any level, seven increments reach 1, where the confidence
    stays. *)
Lemma seven_increments (c : float) :
  In c confidence_levels -> Nat.iter 7 incremented c = 1.
Proof.
  unfold confidence_levels. cbn [In]. intros H.
  repeat (destruct H as [<- | H]; [vm_compute; reflexivity|]).
  contradiction.
Qed.

Lemma increments_at_one (k : nat) : Nat.iter k incremented 1 = 1.
Proof.
  induction k as [|k IH]; [reflexivity|].
  rewrite Nat.iter_succ, IH. vm_compute. reflexivity.
Qed.

Lemma increments_saturate (n : nat) (c : float) :
  In c confidence_levels -> (7 <= n)%nat -> Nat.iter n incremented c = 1.
Proof.
  intros Hc Hn. destruct (Nat.le_exists_sub 7 n Hn) as [k [-> _]].
  rewrite Nat.iter_add, (seven_increments c Hc). apply increments_at_one.
Qed.

(** A run of candidates of the type already held only increments. *)
Lemma stabilize_all_same (gs : list Gesture) :
  forall (ty : string) (c : float),
    Forall (fun g => type g = ty) gs ->
    fst (stabilize_all (mk (Some ty) c) gs)
    = mk (Some ty) (Nat.iter (length gs) incremented c).
Proof.
  induction gs as [|g gs IH]; intros ty c H; [reflexivity|].
  inversion H as [|? ? Hg Hgs]; subst.
  cbn [stabilize_all stabilize].
  rewrite (update_same (mk (Some (type g)) c) g (type g) eq_refl eq_refl).
  cbn [gesture_confidence].
  specialize (IH (type g) (incremented c) Hgs).
  destruct (stabilize_all (mk (Some (type g)) (incremented c)) gs)
    as [s2 outs].
  cbn [fst] in *. rewrite IH. cbn [length].
  rewrite <- Nat.iter_succ_r. reflexivity.
Qed.

(** X8. From any state the recognizer can be in, eight consecutive
    candidates of one type (['none'] included) bring the confidence to
    exactly 1.0 with [last_gesture] that type, and further candidates
    of the type keep it there. *)
Theorem confidence_saturates :
  forall (self : t) (gs : list Gesture) (ty : string),
    In (gesture_confidence self) confidence_levels ->
    Forall (fun g => type g = ty) gs ->
    (8 <= length gs)%nat ->
    fst (stabilize_all self gs) = mk (Some ty) 1.
Proof.
  intros self gs ty Hc Hgs Hlen.
  destruct gs as [|g gs]; [cbn in Hlen; lia|].
  inversion Hgs as [|? ? Hg Hrest]; subst.
  cbn [stabilize_all stabilize].
  destruct (update_first self g Hc) as [Hl Hc1].
  pose proof (stabilize_all_same gs (type g)
                (gesture_confidence (update_confidence self g)) Hrest) as E.
  destruct (update_confidence self g) as [l1 c1].
  cbn [last_gesture gesture_confidence] in *. subst l1.
  destruct (stabilize_all (mk (Some (type g)) c1) gs) as [s2 outs].
  cbn [fst] in *. rewrite E. f_equal.
  apply increments_saturate; [exact Hc1 | cbn [length] in Hlen; lia].
Qed.

Lemma two_increments_clear (c : float) :
  In c confidence_levels ->
  (min_confidence <=? incremented (incremented c)) = true /\
  ((min_confidence <=? c) = true ->
   (min_confidence <=? incremented c) = true).
Proof.
  unfold confidence_levels. cbn [In]. intros H.
  repeat (destruct H as [<- | H]; [vm_compute; auto|]).
  contradiction.
Qed.

Lemma increments_clear (j : nat) (c : float) :
  In c confidence_levels -> (2 <= j)%nat ->
  In (Nat.iter j incremented c) confidence_levels /\
  (min_confidence <=? Nat.iter j incremented c) = true.
Proof.
  intros Hc Hj. destruct (Nat.le_exists_sub 2 j Hj) as [k [-> _]].
  induction k as [|k IH].
  - change (Nat.iter (0 + 2) incremented c)
      with (incremented (incremented c)).
    split; [|exact (proj1 (two_increments_clear c Hc))].
    apply confidence_levels_closed, confidence_levels_closed, Hc.
  - assert (H2 : (2 <= k + 2)%nat) by lia.
    destruct (IH H2) as [IH1 IH2].
    change (Nat.iter (S k + 2) incremented c)
      with (incremented (Nat.iter (k + 2) incremented c)).
    split; [apply confidence_levels_closed, IH1|].
    exact (proj2 (two_increments_clear _ IH1) IH2).
Qed.

Lemma stabilize_all_same_outputs (gs : list Gesture) :
  forall (ty : string) (c : float) (i : nat),
    Forall (fun g => type g = ty) gs -> (i < length gs)%nat ->
    nth i (snd (stabilize_all (mk (Some ty) c) gs)) none_event
    = emit (mk (Some ty) (Nat.iter (S i) incremented c))
        (nth i gs none_event).
Proof.
  induction gs as [|g gs IH]; intros ty c i H Hi; [cbn in Hi; lia|].
  inversion H as [|? ? Hg Hgs]; subst.
  cbn [stabilize_all stabilize].
  rewrite (update_same (mk (Some (type g)) c) g (type g) eq_refl eq_refl).
  cbn [gesture_confidence].
  specialize (IH (type g) (incremented c)).
  destruct (stabilize_all (mk (Some (type g)) (incremented c)) gs)
    as [s2 outs].
  cbn [snd] in *. destruct i as [|i]; [reflexivity|].
  cbn [nth]. rewrite IH by (assumption || (cbn [length] in Hi; lia)).
  rewrite <- Nat.iter_succ_r. reflexivity.
Qed.

(** X9. From any state the recognizer can be in, a gesture that is held
    is reported by its third frame at the latest: in a run of
    candidates of one type other than ['none'], the third and every
    later result is the candidate with a confidence of at least
    [min_confidence] attached. *)
Theorem held_gesture_reported_by_third_frame :
  forall (self : t) (gs : list Gesture) (ty : string) (i : nat),
    In (gesture_confidence self) confidence_levels ->
    Forall (fun g => type g = ty) gs ->
    ty <> "none"%string ->
    (2 <= i < length gs)%nat ->
    exists c : float,
      nth i (snd (stabilize_all self gs)) none_event
      = setitem (nth i gs none_event) "confidence" (VFloat c)
      /\ (min_confidence <=? c) = true.
Proof.
  intros self gs ty i Hc Hgs Hty Hi.
  destruct gs as [|g gs]; [cbn in Hi; lia|].
  inversion Hgs as [|? ? Hg Hrest]; subst.
  destruct i as [|i]; [lia|]. cbn [length] in Hi.
  cbn [stabilize_all stabilize].
  destruct (update_first self g Hc) as [Hl Hc1].
  pose proof (stabilize_all_same_outputs gs (type g)
                (gesture_confidence (update_confidence self g)) i Hrest
                ltac:(lia)) as E.
  destruct (update_confidence self g) as [l1 c1].
  cbn [last_gesture gesture_confidence] in *. subst l1.
  destruct (stabilize_all (mk (Some (type g)) c1) gs) as [s2 outs].
  cbn [snd nth] in *. rewrite E.
  destruct (increments_clear (S i) c1 Hc1 ltac:(lia)) as [_ Hready].
  exists (Nat.iter (S i) incremented c1). split; [|exact Hready].
  assert (Hgi : type (nth i gs none_event) = type g).
  { rewrite Forall_forall in Hrest. apply Hrest, nth_In. lia. }
  unfold emit. cbn [gesture_confidence last_gesture setitem type].
  rewrite Hgi. apply String.eqb_neq in Hty. rewrite Hty, Hready.
  reflexivity.
Qed.

(** X10. The confidence is not kept per gesture: it carries over when
    the type changes.  At a confidence of 0.35 or more a candidate of a
    new type other than ['none'] is reported in that very frame, with
    the old confidence less 0.15; after a saturated run that is 0.85. *)
Theorem new_gesture_reported_at_once :
  forall (self : t) (g : Gesture),
    let c := gesture_confidence self in
    In c confidence_levels ->
    (0.35 <=? c) = true ->
    same_type (type g) (last_gesture self) = false ->
    type g <> "none"%string ->
    stabilize self g
    = (mk (Some (type g)) (c - 0.15),
       setitem g "confidence" (VFloat (c - 0.15))).
Proof.
  intros self g c Hc Hhigh Hnew Hty. subst c.
  unfold stabilize, update_confidence, emit. rewrite Hnew.
  cbn [gesture_confidence last_gesture setitem type].
  apply String.eqb_neq in Hty. rewrite Hty. cbn [negb].
  assert (E : Py.max 0.0 (gesture_confidence self - confidence_decrement)
              = gesture_confidence self - 0.15
              /\ (min_confidence <=? gesture_confidence self - 0.15) = true).
  { revert Hc Hhigh. generalize (gesture_confidence self) as c.
    intros c Hc. unfold confidence_levels in Hc. cbn [In] in Hc.
    repeat (destruct Hc as [<- | Hc];
            [vm_compute; intros H; first [discriminate H | auto]|]).
    contradiction. }
  destruct E as [-> ->]. reflexivity.
Qed.

End StabilizerDynamics.

(** ** When smoothing raises *)

Section SmoothingOutcome.

Import HandTracker.
#[local] Open Scope nat_scope.

Context {py : Builtins}.

Lemma mapM_ok {A B : Type} (f : A -> Res B) (xs : list A) :
  (forall a, In a xs -> exists b, f a = Ok b) ->
  exists bs, mapM f xs = Ok bs /\ length bs = length xs.
Proof.
  induction xs as [|a xs IH]; intros H.
  - exists []. split; reflexivity.
  - destruct (H a (or_introl eq_refl)) as [b Hb].
    destruct IH as [bs [Hbs Hlen]]; [intros a' Ha'; apply H; now right|].
    exists (b :: bs). cbn [mapM]. rewrite Hb. cbn [bind]. rewrite Hbs.
    split; [reflexivity | cbn [length]; lia].
Qed.

Lemma mapM_raise {A B : Type} (f : A -> Res B) (xs : list A) (e : Exn) :
  (forall a, In a xs -> (exists b, f a = Ok b) \/ f a = Raise e) ->
  (exists a, In a xs /\ f a = Raise e) ->
  mapM f xs = Raise e.
Proof.
  induction xs as [|a xs IH]; intros Hall [a0 [Hin Hfail]];
    [contradiction|].
  cbn [mapM].
  destruct (Hall a (or_introl eq_refl)) as [[b Hb] | Hr];
    [|rewrite Hr; reflexivity].
  rewrite Hb. cbn [bind].
  destruct Hin as [<- | Hin]; [congruence|].
  rewrite IH; [reflexivity | intros a' Ha'; apply Hall; now right |].
  exists a0. split; assumption.
Qed.

Lemma coords_ok (c : Landmark -> float) (window : list (list Landmark))
    (i : nat) :
  Forall (fun h => i < length h) window ->
  exists vs, coords c window i = Ok vs.
Proof.
  induction 1 as [|h window Hh _ [vs IH]]; [exists []; reflexivity|].
  cbn [coords]. unfold getitem.
  destruct (nth_error h i) as [lm|] eqn:E;
    [|apply nth_error_None in E; lia].
  cbn [bind]. rewrite IH. eexists. reflexivity.
Qed.

Lemma coords_raise (c : Landmark -> float) (window : list (list Landmark))
    (i : nat) :
  Exists (fun h => length h <= i) window ->
  coords c window i = Raise IndexError.
Proof.
  induction 1 as [h window Hh | h window _ IH]; cbn [coords]; unfold getitem.
  - apply nth_error_None in Hh. rewrite Hh. reflexivity.
  - destruct (nth_error h i); [|reflexivity].
    cbn [bind]. rewrite IH. reflexivity.
Qed.

(** One output landmark: computed when every sample of the window has
    an entry [i], an [IndexError] otherwise. *)
Lemma smoothed_at_outcome (window : list (list Landmark)) (i : nat) :
  (Forall (fun h => i < length h) window ->
   exists lm, smoothed_at window i = Ok lm) /\
  (Exists (fun h => length h <= i) window ->
   smoothed_at window i = Raise IndexError).
Proof.
  unfold smoothed_at, average. split; intros H.
  - destruct (coords_ok x window i H) as [vx ->].
    destruct (coords_ok y window i H) as [vy ->].
    destruct (coords_ok z window i H) as [vz ->].
    eexists. reflexivity.
  - rewrite (coords_raise x window i H). reflexivity.
Qed.

Lemma smoothed_at_cases (window : list (list Landmark)) (i : nat) :
  (exists lm, smoothed_at window i = Ok lm)
  \/ smoothed_at window i = Raise IndexError.
Proof.
  destruct (Forall_Exists_dec (fun h => i < length h)
              (fun h => lt_dec i (length h)) window) as [Hall | Hex].
  - left. apply smoothed_at_outcome, Hall.
  - right. apply smoothed_at_outcome.
    apply Exists_impl with (2 := Hex). intros h Hh. lia.
Qed.

(** What a call does with its window, by the window's size and the
    lengths of the samples in it. *)
Lemma smooth_landmarks_cases (self : t) (current : list Landmark) :
  let window := push_history (landmark_history self) current in
  let result := snd (_smooth_landmarks self current) in
  (length window < 2
   \/ Forall (fun h => length current <= length h) window ->
   exists out, result = Ok out /\ length out = length current) /\
  (2 <= length window ->
   Exists (fun h => length h < length current) window ->
   result = Raise IndexError).
Proof.
  intros window result. subst result.
  unfold _smooth_landmarks. fold window.
  destruct (Nat.ltb_spec (length window) 2) as [Hsmall | Hbig]; cbn [snd].
  - split; [|lia]. intros _. exists current. split; reflexivity.
  - split.
    + intros [Hlt | Hall]; [lia|].
      destruct (mapM_ok (smoothed_at window) (seq 0 (length current)))
        as [out [Hout Hlen]].
      * intros i Hi. apply in_seq in Hi.
        apply smoothed_at_outcome.
        apply Forall_impl with (2 := Hall). intros h Hh. lia.
      * exists out. split; [exact Hout|]. rewrite Hlen. apply length_seq.
    + intros _ Hex. apply mapM_raise.
      * intros i _. apply smoothed_at_cases.
      * apply Exists_exists in Hex. destruct Hex as [h [Hin Hh]].
        exists (length h). split; [apply in_seq; lia|].
        apply smoothed_at_outcome. apply Exists_exists.
        exists h. split; [exact Hin | lia].
Qed.

(** X11. [_smooth_landmarks] always stores the new sample, also when it
    goes on to raise.  It raises, an [IndexError], exactly when the
    window then holds 2 or more samples and one of them has fewer
    landmarks than the input; in every other case it returns a list as
    long as its input. *)
Theorem smooth_landmarks_outcome :
  forall (self : t) (current : list Landmark),
    let window := push_history (landmark_history self) current in
    let result := snd (_smooth_landmarks self current) in
    let shorter_in_window :=
      2 <= length window /\
      Exists (fun h => length h < length current) window in
    landmark_history (fst (_smooth_landmarks self current)) = window /\
    (shorter_in_window -> result = Raise IndexError) /\
    (~ shorter_in_window ->
     exists out, result = Ok out /\ length out = length current).
Proof.
  intros self current window result shorter_in_window.
  destruct (smooth_landmarks_cases self current) as [Hok Hraise].
  fold window in Hok, Hraise. fold result in Hok, Hraise.
  split; [apply smooth_history|]. split.
  - intros [Hbig Hex]. exact (Hraise Hbig Hex).
  - intros Hnot. apply Hok.
    destruct (Nat.lt_ge_cases (length window) 2) as [Hsmall | Hbig];
      [now left | right].
    destruct (Forall_Exists_dec (fun h => length current <= length h)
                (fun h => le_dec (length current) (length h)) window)
      as [Hall | Hex]; [exact Hall|].
    exfalso. apply Hnot. split; [exact Hbig|].
    apply Exists_impl with (2 := Hex). intros h Hh. lia.
Qed.

(** The window of any tracker whose history is within capacity: the last
    six of its history followed by the samples fed. *)
Lemma feed_window (self : t) (samples : list (list Landmark)) :
  length (landmark_history self) <= history_size ->
  landmark_history (feed self samples)
  = skipn (length (landmark_history self ++ samples) - history_size)
          (landmark_history self ++ samples).
Proof.
  intros Hcap. unfold history_size in *.
  induction samples as [|current samples IH] using rev_ind.
  - rewrite app_nil_r. replace (_ - 6) with 0 by lia. reflexivity.
  - rewrite feed_snoc, smooth_history, IH, app_assoc.
    set (all := landmark_history self ++ samples) in *.
    rewrite (length_app all [current]). cbn [length].
    destruct (Nat.le_gt_cases 6 (length all)) as [Hfull | Hshort].
    + rewrite (proj2 (push_history_cases _ current))
        by (unfold history_size; rewrite length_skipn; lia).
      rewrite tl_skipn, skipn_app.
      replace (S (length all - 6)) with (length all + 1 - 6) by lia.
      replace (length all + 1 - 6 - length all) with 0 by lia.
      reflexivity.
    + replace (length all - 6) with 0 by lia.
      replace (length all + 1 - 6) with 0 by lia.
      cbn [skipn].
      apply push_history_cases. unfold history_size. lia.
Qed.

Lemma in_skipn {A : Type} (k : nat) (l : list A) (a : A) :
  In a (skipn k l) -> In a l.
Proof.
  intros H. rewrite <- (firstn_skipn k l). apply in_or_app. now right.
Qed.

Lemma push_history_incl (history : list (list Landmark))
    (current h : list Landmark) :
  In h (push_history history current) -> In h history \/ h = current.
Proof.
  unfold push_history. intros H.
  assert (H' : In h (history ++ [current])).
  { destruct (history_size <? length (history ++ [current])); [|exact H].
    destruct (history ++ [current]); [contradiction | now right]. }
  apply in_app_or in H'. destruct H' as [H' | [<- | []]]; auto.
Qed.

Lemma feed_incl (samples : list (list Landmark)) :
  forall (self : t) (h : list Landmark),
    In h (landmark_history (feed self samples)) ->
    In h (landmark_history self) \/ In h samples.
Proof.
  induction samples as [|current samples IH] using rev_ind; intros self h H.
  - now left.
  - rewrite feed_snoc, smooth_history in H.
    apply push_history_incl in H. destruct H as [H | ->].
    + destruct (IH self h H); [now left | right; apply in_or_app; now left].
    + right. apply in_or_app. right. now left.
Qed.

(** A call on a sample as long as everything stored returns. *)
Lemma smooth_ok_on_equal_lengths (self : t) (current : list Landmark)
    (n : nat) :
  Forall (fun h => length h = n) (landmark_history self) ->
  length current = n ->
  exists out,
    snd (_smooth_landmarks self current) = Ok out /\ length out = n.
Proof.
  intros Hhist Hcur.
  destruct (smooth_landmarks_cases self current) as [Hok _].
  rewrite <- Hcur. apply Hok. right.
  apply Forall_forall. intros h Hin.
  apply push_history_incl in Hin. destruct Hin as [Hin | ->]; [|lia].
  rewrite Forall_forall in Hhist. rewrite (Hhist h Hin). lia.
Qed.

(** X12. A tracker that only ever sees samples of one length never
    raises: if the stored samples and the samples fed all have [n]
    landmarks, the call on a further sample of [n] landmarks returns [n]
    smoothed landmarks. *)
Theorem smoothing_total_on_equal_lengths :
  forall (self : t) (samples : list (list Landmark))
         (current : list Landmark) (n : nat),
    Forall (fun h => length h = n) (landmark_history self) ->
    Forall (fun h => length h = n) samples ->
    length current = n ->
    exists out,
      snd (_smooth_landmarks (feed self samples) current) = Ok out
      /\ length out = n.
Proof.
  intros self samples current n Hhist Hsamples Hcur.
  apply smooth_ok_on_equal_lengths; [|exact Hcur].
  apply Forall_forall. intros h Hin.
  rewrite Forall_forall in Hhist, Hsamples.
  apply feed_incl in Hin. destruct Hin as [Hin | Hin];
    [exact (Hhist h Hin) | exact (Hsamples h Hin)].
Qed.

(** X13. Whatever a tracker within capacity holds, five samples of [n]
    landmarks flush it: the call on a sixth returns [n] smoothed
    landmarks. *)
Theorem smoothing_recovers_after_five :
  forall (self : t) (samples : list (list Landmark))
         (current : list Landmark) (n : nat),
    length (landmark_history self) <= history_size ->
    Forall (fun h => length h = n) samples ->
    5 <= length samples ->
    length current = n ->
    exists out,
      snd (_smooth_landmarks (feed self samples) current) = Ok out
      /\ length out = n.
Proof.
  intros self samples current n Hcap Hsamples Hfive Hcur.
  destruct (smooth_landmarks_cases (feed self samples) current)
    as [Hok _].
  rewrite <- Hcur. apply Hok. right.
  rewrite <- smooth_history, <- feed_snoc, (feed_window self _ Hcap).
  unfold history_size in *.
  rewrite length_app, skipn_app, length_app. cbn [length].
  rewrite skipn_all2 by lia. cbn [app].
  apply Forall_forall. intros h Hin.
  apply in_skipn in Hin.
  apply in_app_or in Hin. rewrite Forall_forall in Hsamples.
  destruct Hin as [Hin | [<- | []]]; [rewrite (Hsamples h Hin) | ]; lia.
Qed.

(** X14. A sample with fewer landmarks than the one that follows it
    makes that call raise, and the calls after it as long as it sits in
    the window: with at most four samples in between, the call on the
    longer sample raises an [IndexError]. *)
Theorem short_sample_poisons_window :
  forall (self : t) (short : list Landmark)
         (between : list (list Landmark)) (current : list Landmark),
    length (landmark_history self) <= history_size ->
    length short < length current ->
    length between <= 4 ->
    snd (_smooth_landmarks (feed self (short :: between)) current)
    = Raise IndexError.
Proof.
  intros self short between current Hcap Hshort Hbetween.
  destruct (smooth_landmarks_cases (feed self (short :: between)) current)
    as [_ Hraise].
  assert (W : push_history (landmark_history (feed self (short :: between)))
                current
              = skipn (length (landmark_history self)
                       + length ((short :: between) ++ [current]) - 6)
                      (landmark_history self)
                ++ (short :: between) ++ [current]).
  { rewrite <- smooth_history, <- feed_snoc, (feed_window self _ Hcap).
    unfold history_size in *. rewrite length_app, skipn_app.
    replace (length (landmark_history self)
             + length ((short :: between) ++ [current]) - 6
             - length (landmark_history self)) with 0
      by (rewrite length_app; cbn [length]; lia).
    reflexivity. }
  apply Hraise; rewrite W.
  - rewrite !length_app. cbn [length]. lia.
  - apply Exists_app. right. apply Exists_cons_hd. exact Hshort.
Qed.

End SmoothingOutcome.

(** ** [get_landmarks] on full hands *)

Section GetLandmarks.

Import HandTracker.
#[local] Open Scope nat_scope.

Context {py : Builtins}.

Lemma smooth_keeps_lengths (self : t) (current : list Landmark) (n : nat) :
  Forall (fun h => length h = n) (landmark_history self) ->
  length current = n ->
  Forall (fun h => length h = n)
         (landmark_history (fst (_smooth_landmarks self current))).
Proof.
  intros Hhist Hcur. rewrite smooth_history. apply Forall_forall.
  intros h Hin. apply push_history_incl in Hin.
  destruct Hin as [Hin | ->]; [|exact Hcur].
  rewrite Forall_forall in Hhist. exact (Hhist h Hin).
Qed.

Lemma hand_entry_total (smoothed : list Landmark) (hand_label : string) :
  length smoothed = 21 ->
  exists h, hand_entry smoothed hand_label = Ok h
            /\ landmarks h = smoothed /\ label h = hand_label
            /\ hand_entries_match h.
Proof.
  intros Hlen.
  do 21 (destruct smoothed as [|? smoothed]; [discriminate Hlen|]).
  eexists. split; [reflexivity|]. repeat split.
Qed.

Lemma hands_loop_total (pairs : list (list Landmark * string)) :
  forall (self : t) (hands_data : list Hand),
    Forall (fun h => length h = 21) (landmark_history self) ->
    Forall (fun h => length h = 21) (map fst pairs) ->
    exists hands,
      hands_loop self pairs hands_data
      = (feed self (map fst pairs), Ok (hands_data ++ hands))
      /\ map label hands = map snd pairs
      /\ Forall (fun h => length (landmarks h) = 21 /\ hand_entries_match h)
                hands.
Proof.
  induction pairs as [|[raw lbl] pairs IH]; intros self acc Hhist Hraw.
  - exists []. rewrite app_nil_r. repeat split. constructor.
  - cbn [map fst] in Hraw. inversion Hraw as [|? ? Hlen Hrest]; subst.
    cbn [hands_loop map fst snd].
    destruct (smooth_ok_on_equal_lengths self raw 21 Hhist Hlen)
      as [out [Hout Hout_len]].
    pose proof (smooth_keeps_lengths self raw 21 Hhist Hlen) as Hnext.
    destruct (_smooth_landmarks self raw) as [self1 r] eqn:E.
    cbn [fst snd] in *. subst r. cbn [bind].
    destruct (hand_entry_total out lbl Hout_len) as [h [-> [Hl [Hlbl Hm]]]].
    destruct (IH self1 (acc ++ [h]) Hnext Hrest) as [hands [-> [Hlabels Hall]]].
    exists (h :: hands). rewrite <- app_assoc. cbn [app].
    split; [|split].
    + f_equal. unfold feed. cbn [fold_left]. rewrite E. reflexivity.
    + cbn [map]. rewrite Hlbl, Hlabels. reflexivity.
    + constructor; [|exact Hall]. rewrite Hl. split; [exact Hout_len | exact Hm].
Qed.

Lemma map_fst_combine {A B : Type} (l : list A) (l' : list B) :
  map fst (combine l l') = firstn (length l') l.
Proof.
  revert l'. induction l as [|a l IH]; intros [|b l']; cbn;
    try reflexivity.
  - rewrite IH. reflexivity.
Qed.

Lemma map_snd_combine {A B : Type} (l : list A) (l' : list B) :
  map snd (combine l l') = firstn (length l) l'.
Proof.
  revert l'. induction l as [|a l IH]; intros [|b l']; cbn;
    try reflexivity.
  - rewrite IH. reflexivity.
Qed.

(** X15. When the window and the detected hands all have 21 landmarks,
    [get_landmarks] raises nothing.  It smooths the hands in order
    through the one shared window, pairs them with the handedness
    labels as [zip] does (hands without a label are dropped before
    they are smoothed), and in each dictionary it returns the entries
    ['wrist'], ['index_tip'], ['thumb_tip'] and ['middle_tip'] are
    landmarks 0, 8, 4 and 12 of the smoothed list. *)
Theorem get_landmarks_total :
  forall (self : t) (results : Results) (raw : list (list Landmark)),
    multi_hand_landmarks results = Some raw ->
    raw <> [] ->
    Forall (fun h => length h = 21) (landmark_history self) ->
    Forall (fun h => length h = 21) raw ->
    exists hands,
      get_landmarks self results
      = (feed self (firstn (length (multi_handedness results)) raw),
         Ok (Some hands))
      /\ map label hands = firstn (length raw) (multi_handedness results)
      /\ Forall (fun h => length (landmarks h) = 21 /\ hand_entries_match h)
                hands.
Proof.
  intros self results raw Hraw Hne Hhist Hlen.
  unfold get_landmarks. rewrite Hraw.
  destruct raw as [|r0 raw]; [congruence|].
  destruct (hands_loop_total (combine (r0 :: raw) (multi_handedness results))
              self [] Hhist) as [hands [E [Hlabels Hall]]].
  { rewrite map_fst_combine. apply Forall_forall. intros h Hin.
    rewrite Forall_forall in Hlen. apply Hlen.
    rewrite <- (firstn_skipn (length (multi_handedness results)) (r0 :: raw)).
    apply in_or_app. now left. }
  rewrite E. cbn [app bind]. exists hands.
  rewrite map_fst_combine in *. rewrite map_snd_combine in Hlabels.
  repeat split; assumption.
Qed.

End GetLandmarks.

(** ** The loop of [stream_camera] *)

Section FrameLoopRun.

Import App Stream.

Context {py : Builtins}.
Variable round1 : float -> float.

(** What a pass that does not raise has done. *)
Lemma cycle_shape (g g' : Loop) (t : Tick)
    (out : list Event * option Yield) :
  cycle round1 g t = (g', Ok out) ->
  if ret t
  then frame_counter g' = (frame_counter g + 1)%Z /\
       frame_times g' = record_frame_time (frame_times g) (elapsed_of t) /\
       snd out = Some (pace (elapsed_of t)) /\
       exists hands gesture rest,
         fst out = CameraFrame hands gesture (timestamp t)
                     (preview (frame_counter g) (frame_base64 t)) :: rest
         /\ (rest = [] \/ exists f l, rest = [Performance f l])
  else g' = g /\ out = ([], None).
Proof.
  unfold cycle, elapsed_of. destruct (ret t); cbn [negb].
  - destruct (track_and_recognize (session g) (results t)) as [s' [data|e]];
      [|discriminate].
    destruct (1.0 <=? current_time t - last_fps_time g);
      intros [= <- <-]; cbn [frame_counter frame_times fst snd];
      repeat split; do 3 eexists; (split; [reflexivity|]);
      [right; do 2 eexists; reflexivity | now left].
  - intros [= <- <-]. split; reflexivity.
Qed.

Lemma run_cons (g : Loop) (t : Tick) (later : list Tick) (g' : Loop)
    (outs : list (list Event * option Yield)) :
  run round1 g (t :: later) = (g', Ok outs) ->
  exists g1 out outs',
    cycle round1 g t = (g1, Ok out) /\
    run round1 g1 later = (g', Ok outs') /\ outs = out :: outs'.
Proof.
  cbn [run]. destruct (cycle round1 g t) as [g1 [out|e]]; [|discriminate].
  destruct (run round1 g1 later) as [g2 [outs'|e]] eqn:Hr; cbn;
    [|discriminate].
  intros [= <- <-]. exists g1, out, outs'. repeat split. exact Hr.
Qed.

(** X16. In a run of the loop that does not raise, every pass answers
    its tick: a captured frame sends exactly one [camera_frame] (stamped
    with that tick's time, followed by at most one [performance]) and
    ends in [socketio.sleep] on the paced duration; a failed capture
    sends nothing, changes no variable and does not reach
    [socketio.sleep] at all. *)
Theorem run_answers_every_tick :
  forall (g g' : Loop) (ticks : list Tick)
         (outs : list (list Event * option Yield)),
    run round1 g ticks = (g', Ok outs) ->
    Forall2 (answers round1) ticks outs.
Proof.
  intros g g' ticks. revert g.
  induction ticks as [|t later IH]; intros g outs H.
  - cbn in H. injection H as <- <-. constructor.
  - destruct (run_cons g t later g' outs H) as [g1 [out [outs' [Hc [Hr ->]]]]].
    constructor; [|exact (IH g1 outs' Hr)].
    pose proof (cycle_shape g g1 t out Hc) as S. unfold answers.
    destruct (ret t) eqn:E.
    + destruct S as (_ & _ & Hy & hands & gesture & rest & Hf & Hrest).
      split; [exact Hy|]. do 4 eexists. split; [exact Hf | exact Hrest].
    + destruct S as [_ ->]. split; [reflexivity|].
      intros g0. unfold cycle. rewrite E. reflexivity.
Qed.

(** X17. While every frame is captured and encodes to a non-empty
    preview, the previews go out with every second [camera_frame],
    starting with the first after [frame_counter = 0]: pass [i] carries
    a preview exactly when [frame_counter + i] is even. *)
Theorem preview_on_every_second_frame :
  forall (g g' : Loop) (ticks : list Tick)
         (outs : list (list Event * option Yield)) (i : nat),
    run round1 g ticks = (g', Ok outs) ->
    Forall (fun t => ret t = true /\ frame_base64 t <> EmptyString) ticks ->
    (i < length ticks)%nat ->
    has_preview (nth i outs ([], None))
    = Z.even (frame_counter g + Z.of_nat i).
Proof.
  intros g g' ticks. revert g.
  induction ticks as [|t later IH]; intros g outs i H Hall Hi;
    [cbn in Hi; lia|].
  destruct (run_cons g t later g' outs H) as [g1 [out [outs' [Hc [Hr ->]]]]].
  inversion Hall as [|? ? [Hret Henc] Hlater]; subst.
  pose proof (cycle_shape g g1 t out Hc) as S. rewrite Hret in S.
  destruct S as (Hcount & _ & _ & hands & gesture & rest & Hf & _).
  destruct i as [|i].
  - cbn [nth]. rewrite Z.add_0_r. unfold has_preview. rewrite Hf.
    unfold preview, preview_frame_skip. rewrite Zmod_even.
    destruct (Z.even (frame_counter g)); cbn [Z.eqb fst].
    + destruct (frame_base64 t); [contradiction|reflexivity].
    + reflexivity.
  - cbn [nth]. rewrite (IH g1 outs' i Hr Hlater) by (cbn in Hi; lia).
    rewrite Hcount. f_equal. lia.
Qed.

End FrameLoopRun.

(** ** The loop on well-formed detector output *)

Section FrameLoopTotal.

Import App Stream.
#[local] Open Scope nat_scope.

Context {py : Builtins}.
Variable round1 : float -> float.

Lemma recognize_ok (self : GestureRecognizer.t) (hand : Hand)
    (others : list Hand) :
  length (landmarks hand) = 21 ->
  exists self' g,
    GestureRecognizer.recognize self (Some (hand :: others))
    = (self', Ok (Some g)).
Proof.
  intros Hlen. unfold GestureRecognizer.recognize, GestureRecognizer.candidate.
  rewrite (detect_fingers_up_total _ Hlen). cbn [bind].
  match goal with
  | |- context [GestureRecognizer._classify_gesture ?f ?l ?h] =>
      destruct (classify_gesture_total f l h Hlen) as [g [-> _]]
  end.
  unfold GestureRecognizer.stabilize. do 2 eexists. reflexivity.
Qed.

Lemma track_and_recognize_ok (s : Session) (results : HandTracker.Results) :
  Forall (fun h => length h = 21)
         (HandTracker.landmark_history (hand_tracker s)) ->
  match HandTracker.multi_hand_landmarks results with
  | None => True
  | Some raw => Forall (fun h => length h = 21) raw
  end ->
  exists s' data,
    track_and_recognize s results = (s', Ok data) /\
    Forall (fun h => length h = 21)
           (HandTracker.landmark_history (hand_tracker s')).
Proof.
  intros Hhist Hraw. unfold track_and_recognize, HandTracker.get_landmarks.
  destruct (HandTracker.multi_hand_landmarks results) as [[|r0 raw]|].
  - do 2 eexists. split; [reflexivity | exact Hhist].
  - destruct (hands_loop_total
                (combine (r0 :: raw) (HandTracker.multi_handedness results))
                (hand_tracker s) [] Hhist) as [hands [E [_ Hall]]].
    { rewrite map_fst_combine. apply Forall_forall. intros h Hin.
      rewrite Forall_forall in Hraw. apply Hraw.
      rewrite <- (firstn_skipn
                    (length (HandTracker.multi_handedness results))
                    (r0 :: raw)).
      apply in_or_app. now left. }
    rewrite E. cbn [app bind].
    assert (Hnext : Forall (fun h => length h = 21)
                      (HandTracker.landmark_history
                         (HandTracker.feed (hand_tracker s)
                            (map fst (combine (r0 :: raw)
                               (HandTracker.multi_handedness results)))))).
    { apply Forall_forall. intros h Hin. apply feed_incl in Hin.
      rewrite Forall_forall in Hhist, Hraw.
      destruct Hin as [Hin | Hin]; [exact (Hhist h Hin)|].
      apply Hraw. rewrite map_fst_combine in Hin.
      rewrite <- (firstn_skipn
                    (length (HandTracker.multi_handedness results))
                    (r0 :: raw)).
      apply in_or_app. now left. }
    destruct hands as [|h hands].
    + do 2 eexists. split; [reflexivity | exact Hnext].
    + inversion Hall as [|? ? [Hlen _] _]; subst.
      destruct (recognize_ok (gesture_recognizer s) h hands Hlen)
        as [self' [g ->]].
      cbn [bind]. do 2 eexists. split; [reflexivity | exact Hnext].
  - do 2 eexists. split; [reflexivity | exact Hhist].
Qed.

(** X18. The loop does not die on well-formed detector output: started
    with a window of 21-landmark samples, and given in every pass either
    no hand or hands of 21 landmarks each, [stream_camera] raises in no
    pass, however many hands are reported, whether or not the captures
    succeed and whatever the clock reads. *)
Theorem run_never_raises :
  forall (g : Loop) (ticks : list Tick),
    Forall (fun h => length h = 21)
           (HandTracker.landmark_history (hand_tracker (session g))) ->
    Forall tick_has_full_hands ticks ->
    exists g' outs,
      run round1 g ticks = (g', Ok outs) /\
      length outs = length ticks /\
      Forall (fun h => length h = 21)
             (HandTracker.landmark_history (hand_tracker (session g'))).
Proof.
  intros g ticks. revert g.
  induction ticks as [|t later IH]; intros g Hhist Hticks.
  - exists g, []. repeat split. exact Hhist.
  - inversion Hticks as [|? ? Ht Hlater]; subst.
    assert (C : exists g1 out,
               cycle round1 g t = (g1, Ok out) /\
               Forall (fun h => length h = 21)
                 (HandTracker.landmark_history
                    (hand_tracker (session g1)))).
    { unfold cycle. destruct (ret t); cbn [negb].
      - destruct (track_and_recognize_ok (session g) (results t) Hhist Ht)
          as [s' [data [-> Hnext]]].
        destruct (1.0 <=? current_time t - last_fps_time g)%float;
          do 2 eexists; (split; [reflexivity | exact Hnext]).
      - do 2 eexists. split; [reflexivity | exact Hhist]. }
    destruct C as [g1 [out [Hc Hnext]]].
    destruct (IH g1 Hnext Hlater) as [g' [outs [Hr [Hlen Hfinal]]]].
    exists g', (out :: outs). cbn [run]. rewrite Hc, Hr. cbn [bind].
    repeat split; [cbn [length]; lia | exact Hfinal].
Qed.

Lemma record_frame_time_last (times : list float) (elapsed : float) :
  length times <= 60 ->
  record_frame_time times elapsed = last_n 60 (times ++ [elapsed]).
Proof.
  intros Hcap. unfold record_frame_time, last_n.
  rewrite length_app. cbn [length].
  destruct (Nat.ltb_spec 60 (length times + 1)) as [Hfull | Hroom].
  - replace (length times + 1 - 60) with 1 by lia.
    destruct (times ++ [elapsed]); reflexivity.
  - replace (length times + 1 - 60) with 0 by lia. reflexivity.
Qed.

Lemma last_n_length {A : Type} (n : nat) (l : list A) :
  length (last_n n l) <= n.
Proof. unfold last_n. rewrite length_skipn. lia. Qed.

Lemma last_n_app {A : Type} (n : nat) (l later : list A) :
  last_n n (last_n n l ++ later) = last_n n (l ++ later).
Proof.
  unfold last_n.
  rewrite !length_app, length_skipn.
  destruct (Nat.le_gt_cases n (length l)) as [Hfull | Hshort].
  - rewrite !skipn_app, length_skipn, skipn_skipn.
    f_equal; f_equal; lia.
  - replace (length l - n) with 0 by lia. cbn [skipn].
    rewrite Nat.sub_0_r. reflexivity.
Qed.

(** X19. [frame_times] is a ring of the 60 latest processing times: in
    a run that does not raise, starting from a list of at most 60
    entries, it ends as the last 60 of the old entries followed by
    [elapsed] of every captured frame, in order; failed captures record
    nothing. *)
Theorem frame_times_last_sixty :
  forall (g g' : Loop) (ticks : list Tick)
         (outs : list (list Event * option Yield)),
    run round1 g ticks = (g', Ok outs) ->
    length (frame_times g) <= 60 ->
    frame_times g'
    = last_n 60 (frame_times g ++ map elapsed_of (filter ret ticks))
    /\ length (frame_times g') <= 60.
Proof.
  intros g g' ticks. revert g.
  induction ticks as [|t later IH]; intros g outs H Hcap.
  - cbn in H. injection H as <- <-. cbn [filter map].
    rewrite app_nil_r. unfold last_n.
    replace (length (frame_times g) - 60) with 0 by lia.
    split; [reflexivity | exact Hcap].
  - destruct (run_cons round1 g t later g' outs H)
      as [g1 [out [outs' [Hc [Hr ->]]]]].
    pose proof (cycle_shape round1 g g1 t out Hc) as S.
    cbn [filter]. destruct (ret t).
    + destruct S as (_ & Htimes & _).
      rewrite (record_frame_time_last _ _ Hcap) in Htimes.
      destruct (IH g1 outs' Hr) as [E Hlen].
      { rewrite Htimes. apply last_n_length. }
      split; [|exact Hlen].
      rewrite E, Htimes. cbn [map].
      rewrite last_n_app, <- app_assoc. reflexivity.
    + destruct S as [-> _]. exact (IH g outs' Hr Hcap).
Qed.

End FrameLoopTotal.

(** ** The stream handlers *)

Section Handlers.

Import Stream.
#[local] Open Scope nat_scope.

(** The three ways a [start_stream] request ends. *)
Lemma handle_start_stream_cases (s : Server) (env : StartEnv) :
  let s' := fst (handle_start_stream s env) in
  let done := snd (handle_start_stream s env) in
  (exists message, done = [EmitError message] /\
                   is_streaming s' = is_streaming s)
  \/ (done = [] /\ is_streaming s' = true /\ is_streaming s = true)
  \/ (done = [StartThread; EmitStreamStarted] /\
      is_streaming s = false /\ is_streaming s' = true /\
      camera s' = true /\ trackers s' <> None).
Proof.
  destruct s as [cam [session|] streaming], env as [opened init ok].
  all: destruct cam, opened, init, ok, streaming; cbn;
    first [ left; eexists; split; reflexivity
          | right; left; repeat split; reflexivity
          | right; right; repeat split; try reflexivity; discriminate ].
Qed.

Lemma handle_start_stream_trackers (s : Server) (env : StartEnv)
    (session : App.Session) :
  trackers s = Some session ->
  trackers (fst (handle_start_stream s env)) = Some session.
Proof.
  destruct s as [cam tr streaming], env as [opened init ok].
  cbn [trackers]. intros ->.
  destruct cam, opened, init, ok, streaming; reflexivity.
Qed.

Lemma threads_started_app (a b : list Action) :
  threads_started (a ++ b) = threads_started a + threads_started b.
Proof. unfold threads_started. rewrite filter_app, length_app. reflexivity. Qed.

Lemma serve_cons (s : Server) (r : Request) (later : list Request) :
  serve s (r :: later)
  = (fst (serve (fst (handle s r)) later),
     snd (handle s r) ++ snd (serve (fst (handle s r)) later)).
Proof.
  cbn [serve]. destruct (handle s r) as [s1 done]. cbn [fst snd].
  destruct (serve s1 later) as [s2 rest]. reflexivity.
Qed.

(** X20. However the requests arrive and whatever the camera and the
    detector answer, the handlers start at most one streaming thread
    per [stop_stream], plus one if no stream was running at the
    beginning: a [start_stream] while [is_streaming] is set never starts
    a second thread. *)
Theorem threads_bounded_by_stops :
  forall (s : Server) (requests : list Request),
    threads_started (snd (serve s requests))
    <= stops requests + (if is_streaming s then 0 else 1).
Proof.
  intros s requests. revert s.
  induction requests as [|r later IH]; intros s.
  - cbn. lia.
  - rewrite serve_cons. cbn [snd]. rewrite threads_started_app.
    specialize (IH (fst (handle s r))).
    destruct r as [env|]; cbn [handle] in *.
    + unfold stops in *. cbn [filter].
      destruct (handle_start_stream_cases s env)
        as [[message [-> Hs]] | [[-> [Hs Hon]] | [-> [Hoff [Hon _]]]]].
      * rewrite Hs in IH. cbn. lia.
      * rewrite Hs in IH. cbn. lia.
      * rewrite Hon in IH. rewrite Hoff. cbn. lia.
    + unfold stops in *. cbn [filter length].
      cbn [handle_stop_stream fst snd is_streaming] in *.
      cbn. destruct (is_streaming s); lia.
Qed.

(** X21. [start_stream] starts the thread only with everything the loop
    uses in place: when it starts one, a capture object is assigned,
    [hand_tracker] and [gesture_recognizer] are set, [is_streaming] has
    just gone from [False] to [True], and the client is sent
    [stream_started] and no error. *)
Theorem thread_started_only_when_ready :
  forall (s : Server) (env : StartEnv),
    In StartThread (snd (handle_start_stream s env)) ->
    let s' := fst (handle_start_stream s env) in
    camera s' = true /\ trackers s' <> None /\
    is_streaming s = false /\ is_streaming s' = true /\
    snd (handle_start_stream s env) = [StartThread; EmitStreamStarted].
Proof.
  intros s env Hin s'. subst s'.
  destruct (handle_start_stream_cases s env)
    as [[message [E _]] | [[E _] | [E [Hoff [Hon [Hcam Htr]]]]]].
  - rewrite E in Hin. destruct Hin as [Hin | []]. discriminate Hin.
  - rewrite E in Hin. contradiction.
  - repeat split; assumption.
Qed.

(** X22. No request resets the tracking state: once [hand_tracker] and
    [gesture_recognizer] are set, they stay the same objects through
    every sequence of [start_stream] and [stop_stream], so the smoothing
    window and the gesture confidence carry over from one stream to the
    next. *)
Theorem handlers_keep_trackers :
  forall (s : Server) (requests : list Request) (session : App.Session),
    trackers s = Some session ->
    trackers (fst (serve s requests)) = Some session.
Proof.
  intros s requests session. revert s.
  induction requests as [|r later IH]; intros s Hs; [exact Hs|].
  rewrite serve_cons. cbn [fst]. apply IH.
  destruct r as [env|]; cbn [handle].
  - apply handle_start_stream_trackers, Hs.
  - exact Hs.
Qed.

End Handlers.

(** ** Further concrete runs *)

Section FurtherRuns.

Import GestureRecognizer.

Lemma two_fingers_branch_witness :
  candidate (py := before_3_12) two_finger_hand
  = Ok (mkGesture "two_fingers"
          [("position"%string, xy 0.5 0.2); ("distance"%string, VFloat 0)]).
Proof.
  exact (two_fingers_branch (py := before_3_12) two_finger_hand
           eq_refl eq_refl eq_refl eq_refl eq_refl eq_refl).
Defined.

Lemma open_palm_branch_witness :
  candidate (py := before_3_12) open_hand
  = Ok (mkGesture "open_palm"
          [("position"%string, xy 0.52 0.5);
           ("fingers_extended"%string, VInt 5)]).
Proof.
  exact (open_palm_branch (py := before_3_12) open_hand
           eq_refl eq_refl eq_refl).
Defined.

Lemma pinch_and_point_exactly_witness :
  ("pinch"%string = "pinch"%string <->
   (distance (landmark pinching_hand 4) (landmark pinching_hand 8)
    <? pinch_threshold) = true) /\
  ("pinch"%string = "point"%string <->
   (y (landmark pinching_hand 8) <? y (landmark pinching_hand 6)) = true /\
   (y (landmark pinching_hand 12) <? y (landmark pinching_hand 10)) = false /\
   (y (landmark pinching_hand 16) <? y (landmark pinching_hand 14)) = false /\
   (y (landmark pinching_hand 20) <? y (landmark pinching_hand 18)) = false /\
   (pinch_threshold
    <=? distance (landmark pinching_hand 4) (landmark pinching_hand 8))
   = true).
Proof.
  exact (pinch_and_point_exactly (py := before_3_12) pinching_hand _
           candidate_of_pinching_hand).
Defined.

Lemma candidate_reads_21_landmarks_witness :
  candidate (py := before_3_12) pointing_hand
  = candidate (py := before_3_12) pointing_hand_relabelled /\
  recognize (py := before_3_12) init (Some [pointing_hand])
  = recognize (py := before_3_12) init
      (Some [pointing_hand_relabelled; pinching_hand]).
Proof.
  exact (candidate_reads_21_landmarks (py := before_3_12) init
           pointing_hand pointing_hand_relabelled [] [pinching_hand]
           eq_refl).
Defined.

Lemma confidence_saturates_witness :
  fst (stabilize_all init (repeat (bare "pinch") 8))
  = mk (Some "pinch"%string) 1.
Proof.
  apply (confidence_saturates init (repeat (bare "pinch") 8) "pinch").
  - left. reflexivity.
  - repeat constructor.
  - apply le_n.
Defined.

Lemma held_gesture_reported_by_third_frame_witness :
  exists c : float,
    nth 2 (snd (stabilize_all init (repeat (bare "pinch") 3))) none_event
    = setitem (nth 2 (repeat (bare "pinch") 3) none_event) "confidence"
        (VFloat c)
    /\ (min_confidence <=? c) = true.
Proof.
  apply (held_gesture_reported_by_third_frame init
           (repeat (bare "pinch") 3) "pinch" 2).
  - left. reflexivity.
  - repeat constructor.
  - discriminate.
  - split; [apply le_n | apply le_n].
Defined.

Lemma new_gesture_reported_at_once_witness :
  stabilize (mk (Some "pinch"%string) 1) (bare "point")
  = (mk (Some "point"%string) 0.85,
     setitem (bare "point") "confidence" (VFloat 0.85)).
Proof.
  apply (new_gesture_reported_at_once (mk (Some "pinch"%string) 1)
           (bare "point")).
  - do 15 right. left. reflexivity.
  - reflexivity.
  - reflexivity.
  - discriminate.
Defined.

Lemma smoothing_total_on_equal_lengths_witness :
  exists out,
    snd (HandTracker._smooth_landmarks (py := before_3_12)
           (HandTracker.feed (py := before_3_12) HandTracker.init
              [flat_sample 0.5])
           (flat_sample 0.25))
    = Ok out
    /\ length out = 21%nat.
Proof.
  apply (smoothing_total_on_equal_lengths (py := before_3_12)
           HandTracker.init [flat_sample 0.5] (flat_sample 0.25) 21).
  - constructor.
  - repeat constructor.
  - reflexivity.
Defined.

Lemma smoothing_recovers_after_five_witness :
  exists out,
    snd (HandTracker._smooth_landmarks (py := before_3_12)
           (HandTracker.feed (py := before_3_12) (HandTracker.mk [[]])
              (repeat (flat_sample 0.5) 5))
           (flat_sample 0.25))
    = Ok out
    /\ length out = 21%nat.
Proof.
  apply (smoothing_recovers_after_five (py := before_3_12)
           (HandTracker.mk [[]]) (repeat (flat_sample 0.5) 5)
           (flat_sample 0.25) 21).
  - cbv. repeat constructor.
  - repeat constructor.
  - apply le_n.
  - reflexivity.
Defined.

Lemma short_sample_poisons_window_witness :
  snd (HandTracker._smooth_landmarks (py := before_3_12)
         (HandTracker.feed (py := before_3_12) HandTracker.init
            [firstn 20 (flat_sample 0.5); flat_sample 0.5])
         (flat_sample 0.5))
  = Raise IndexError.
Proof.
  apply (short_sample_poisons_window (py := before_3_12) HandTracker.init
           (firstn 20 (flat_sample 0.5)) [flat_sample 0.5]
           (flat_sample 0.5)).
  - cbv. repeat constructor.
  - cbv. repeat constructor.
  - cbv. repeat constructor.
Defined.

Lemma get_landmarks_total_witness :
  exists hands,
    HandTracker.get_landmarks (py := before_3_12) HandTracker.init one_hand
    = (HandTracker.feed (py := before_3_12) HandTracker.init
         (firstn 1 [landmarks pointing_hand]),
       Ok (Some hands))
    /\ map label hands = firstn 1 ["Right"%string]
    /\ Forall (fun h => length (landmarks h) = 21%nat /\ hand_entries_match h)
              hands.
Proof.
  apply (get_landmarks_total (py := before_3_12) HandTracker.init one_hand
           [landmarks pointing_hand]).
  - reflexivity.
  - discriminate.
  - constructor.
  - repeat constructor.
Defined.

Lemma run_answers_every_tick_witness :
  exists g' outs,
    Stream.run (py := before_3_12) (fun v => v) fresh_loop
      [captured_tick; failed_tick]
    = (g', Ok outs)
    /\ Forall2 (answers (py := before_3_12) (fun v => v))
         [captured_tick; failed_tick] outs.
Proof.
  do 2 eexists.
  refine ((fun H => conj H (run_answers_every_tick (py := before_3_12)
                              (fun v => v) fresh_loop _
                              [captured_tick; failed_tick] _ H)) _).
  cbv. reflexivity.
Defined.

Lemma preview_on_every_second_frame_witness :
  exists g' outs,
    Stream.run (py := before_3_12) (fun v => v) fresh_loop
      [captured_tick; captured_tick]
    = (g', Ok outs)
    /\ has_preview (nth 1 outs ([], None)) = false.
Proof.
  do 2 eexists.
  refine ((fun H => conj H (preview_on_every_second_frame
                              (py := before_3_12) (fun v => v) fresh_loop _
                              [captured_tick; captured_tick] _ 1 H _ _)) _).
  - repeat constructor; discriminate.
  - apply le_n.
  - cbv. reflexivity.
Defined.

Lemma run_never_raises_witness :
  exists g' outs,
    Stream.run (py := before_3_12) (fun v => v) fresh_loop
      [captured_tick; failed_tick]
    = (g', Ok outs)
    /\ length outs = 2%nat
    /\ Forall (fun h => length h = 21%nat)
         (HandTracker.landmark_history
            (App.hand_tracker (Stream.session g'))).
Proof.
  apply (run_never_raises (py := before_3_12) (fun v => v) fresh_loop
           [captured_tick; failed_tick]).
  - constructor.
  - repeat constructor.
Defined.

Lemma frame_times_last_sixty_witness :
  exists g' outs,
    Stream.run (py := before_3_12) (fun v => v) fresh_loop
      [captured_tick; failed_tick; captured_tick]
    = (g', Ok outs)
    /\ (Stream.frame_times g' = last_n 60 [0.00390625; 0.00390625]
        /\ (length (Stream.frame_times g') <= 60)%nat).
Proof.
  do 2 eexists.
  refine ((fun H => conj H (frame_times_last_sixty (py := before_3_12)
                              (fun v => v) fresh_loop _
                              [captured_tick; failed_tick; captured_tick]
                              _ H _)) _).
  - apply Nat.le_0_l.
  - cbv. reflexivity.
Defined.

Lemma thread_started_only_when_ready_witness :
  Stream.camera (fst (Stream.handle_start_stream cold_server all_well))
  = true /\
  Stream.trackers (fst (Stream.handle_start_stream cold_server all_well))
  <> None /\
  Stream.is_streaming cold_server = false /\
  Stream.is_streaming (fst (Stream.handle_start_stream cold_server all_well))
  = true /\
  snd (Stream.handle_start_stream cold_server all_well)
  = [Stream.StartThread; Stream.EmitStreamStarted].
Proof.
  apply (thread_started_only_when_ready cold_server all_well).
  left. reflexivity.
Defined.

Lemma handlers_keep_trackers_witness :
  Stream.trackers
    (fst (Stream.serve
            (Stream.mkServer true
               (Some (App.mkSession (HandTracker.mk [flat_sample 0.5])
                        (mk (Some "pinch"%string) 0.75)))
               true)
            [Stream.StopStream; Stream.StartStream all_well]))
  = Some (App.mkSession (HandTracker.mk [flat_sample 0.5])
            (mk (Some "pinch"%string) 0.75)).
Proof.
  apply (handlers_keep_trackers
           (Stream.mkServer true
              (Some (App.mkSession (HandTracker.mk [flat_sample 0.5])
                       (mk (Some "pinch"%string) 0.75)))
              true)
           [Stream.StopStream; Stream.StartStream all_well]).
  reflexivity.
Defined.

End FurtherRuns.
